(** * Chain validation and storage contract of the certificate-transparency log

    A shallow embedding of [cpp/log/cert_checker.cc] (the trust store and the
    chain validator [CertChecker]) and of [Database::WriteTreeHead] and
    [Database::CreateSequencedEntry] from [cpp/log/database.h], followed by
    the properties established about them.

    Conventions of the embedding:
    - a [std::string] is a [string]; an out-parameter [string*] is threaded
      through: the function takes the old contents and returns the new ones;
    - an object that a method mutates through a pointer ([CertChain*],
      [TbsCertificate]) is passed in and handed back with the result;
    - a pointer that the code compares with [NULL] is an [option];
    - [size_t] is an [N] reduced modulo [2^64];
    - the classes [Cert], [CertChain], [PreCertChain] and [TbsCertificate]
      are declared in [log/cert.h], which is an external collaborator: their
      methods are the fields of the class [CertLib] below, one field per
      method the checker calls. *)

From Stdlib Require Import List String Bool NArith ZArith Lia.
Import ListNotations.

Local Open Scope string_scope.
Local Open Scope list_scope.

(** ** [util::Status] *)

Module util.

Module error.
(** The canonical error space; only the codes the checker uses. *)
Inductive Code : Set :=
| OK
| INVALID_ARGUMENT
| FAILED_PRECONDITION
| INTERNAL.
End error.

Record Status : Set := mkStatus {
  error_code : error.Code;
  error_message : string
}.

(** [Status::OK] *)
Definition Status_OK : Status := mkStatus error.OK "".

(** [Status::ok()] *)
Definition ok (s : Status) : bool :=
  match error_code s with
  | error.OK => true
  | _ => false
  end.

End util.

(** ** The certificate capability set ([log/cert.h]) *)

Module Cert.
(** [Cert::Status], the outcome of every capability call. *)
Inductive Status : Set :=
| TRUE
| FALSE
| ERROR
| UNSUPPORTED_ALGORITHM.
End Cert.

(** [PreCertChain] derives from [CertChain] and adds methods but no state, and
    [CheckIssuerChain] mutates a [PreCertChain] through its base pointer: both
    are the one type [CertChain] here. *)
Class CertLib : Type := {
  Cert : Type;
  CertChain : Type;
  TbsCertificate : Type;
  (** [cert_trans::NID_ctPoison], from [log/ct_extensions.h] *)
  NID_ctPoison : Z;
  (* Cert *)
  IsLoaded : Cert -> bool;
  Clone : Cert -> Cert;
  IsIdenticalTo : Cert -> Cert -> bool;
  DerEncodedSubjectName : Cert -> Cert.Status * string;
  DerEncodedIssuerName : Cert -> Cert.Status * string;
  HasCriticalExtension : Cert -> Z -> Cert.Status;
  IsSignedBy : Cert -> Cert -> Cert.Status;
  SPKISha256Digest : Cert -> Cert.Status * string;
  (* CertChain *)
  Chain_IsLoaded : CertChain -> bool;
  Length : CertChain -> N;
  CertAt : CertChain -> N -> Cert;
  LeafCert : CertChain -> Cert;
  LastCert : CertChain -> option Cert;
  AddCert : CertChain -> Cert -> Cert.Status * CertChain;
  RemoveCertsAfterFirstSelfSigned : CertChain -> Cert.Status * CertChain;
  IsValidCaIssuerChainMaybeLegacyRoot : CertChain -> Cert.Status;
  IsValidSignatureChain : CertChain -> Cert.Status;
  (* PreCertChain *)
  IsWellFormed : CertChain -> Cert.Status;
  UsesPrecertSigningCertificate : CertChain -> Cert.Status;
  PreCert : CertChain -> Cert;
  PrecertIssuingCert : CertChain -> Cert;
  (* TbsCertificate *)
  TbsCertificate_of : Cert -> TbsCertificate;
  Tbs_IsLoaded : TbsCertificate -> bool;
  DeleteExtension : TbsCertificate -> Z -> Cert.Status * TbsCertificate;
  CopyIssuerFrom : TbsCertificate -> Cert -> Cert.Status * TbsCertificate;
  DerEncoding : TbsCertificate -> Cert.Status * string
}.

(** ** [CertChecker] *)

Module CertChecker.

Inductive CertVerifyResult : Set :=
| OK
| INVALID_CERTIFICATE_CHAIN
| PRECERT_EXTENSION_IN_CERT_CHAIN
| UNSUPPORTED_ALGORITHM_IN_CERT_CHAIN
| PRECERT_CHAIN_NOT_WELL_FORMED
| ROOT_NOT_IN_LOCAL_STORE
| INTERNAL_ERROR.

Definition GetVerifyError (result : CertVerifyResult) : util.Status :=
  match result with
  | INVALID_CERTIFICATE_CHAIN
  | PRECERT_EXTENSION_IN_CERT_CHAIN
  | UNSUPPORTED_ALGORITHM_IN_CERT_CHAIN =>
      util.mkStatus util.error.INVALID_ARGUMENT "invalid certificate chain"
  | PRECERT_CHAIN_NOT_WELL_FORMED =>
      util.mkStatus util.error.INVALID_ARGUMENT "prechain not well formed"
  | ROOT_NOT_IN_LOCAL_STORE =>
      util.mkStatus util.error.FAILED_PRECONDITION "unknown root"
  | INTERNAL_ERROR =>
      util.mkStatus util.error.INTERNAL "internal error"
  | OK => util.Status_OK
  end.

(** What one call of [PEM_read_bio_X509] on the input yields while data
    remains: a certificate, or [NULL] with an error other than
    [PEM_R_NO_START_LINE].  A [BIO] is the sequence of these outcomes; once
    it is exhausted the call yields [NULL] with [PEM_R_NO_START_LINE], the
    clean end of input. *)
Inductive PemRead (X509 : Type) : Type :=
| PEM_x509 (x509 : X509)
| PEM_bad_encoding.
Arguments PEM_x509 {X509} x509.
Arguments PEM_bad_encoding {X509}.

Definition size_t_modulus : N := 2 ^ 64.

Section Checker.
Context {CL : CertLib}.

(** [std::multimap<string, const Cert*> trusted_]: the entries in
    insertion order.  [insert] places an element after those with an
    equivalent key and [equal_range] yields the elements with an
    equivalent key in the order they were inserted, which is all the
    checker relies on. *)
Definition TrustStore : Type := list (string * Cert).

Definition BIO : Type := list (PemRead Cert).

Definition equal_range (trusted_ : TrustStore) (key : string)
  : list (string * Cert) :=
  filter (fun entry => String.eqb (fst entry) key) trusted_.

Definition insert (trusted_ : TrustStore) (entry : string * Cert)
  : TrustStore :=
  trusted_ ++ [entry].

Definition empty (trusted_ : TrustStore) : bool :=
  match trusted_ with
  | [] => true
  | _ :: _ => false
  end.

(** The candidate loop of [IsTrusted]. *)
Fixpoint identical_in (cert : Cert) (cand_range : list (string * Cert))
  : bool :=
  match cand_range with
  | [] => false
  | it :: rest =>
      let cand := snd it in
      if IsIdenticalTo cert cand then true else identical_in cert rest
  end.

Definition IsTrusted (trusted_ : TrustStore) (cert : Cert)
    (subject_name : string) : CertVerifyResult * string :=
  let '(status, cert_name) := DerEncodedSubjectName cert in
  match status with
  | Cert.ERROR => (INTERNAL_ERROR, subject_name)
  | Cert.TRUE =>
      let subject_name := cert_name in
      let cand_range := equal_range trusted_ cert_name in
      if identical_in cert cand_range
      then (OK, subject_name)
      else (ROOT_NOT_IN_LOCAL_STORE, subject_name)
  | _ => (INVALID_CERTIFICATE_CHAIN, subject_name)
  end.

(** The candidate loop of [GetTrustedCa]: [inl r] is an early [return r]
    from inside the loop, [inr issuer] is the value of [issuer] when the
    loop is left ([None] for [NULL]). *)
Fixpoint find_issuer (subject : Cert) (issuer_range : list (string * Cert))
  : CertVerifyResult + option Cert :=
  match issuer_range with
  | [] => inr None
  | it :: rest =>
      let issuer_cand := snd it in
      match IsSignedBy subject issuer_cand with
      | Cert.UNSUPPORTED_ALGORITHM => inl UNSUPPORTED_ALGORITHM_IN_CERT_CHAIN
      | Cert.ERROR => inl INTERNAL_ERROR
      | Cert.TRUE => inr (Some issuer_cand)
      | Cert.FALSE => find_issuer subject rest
      end
  end.

Definition GetTrustedCa (trusted_ : TrustStore) (chain : CertChain)
  : CertVerifyResult * CertChain :=
  match LastCert chain with
  | None => (INTERNAL_ERROR, chain)
  | Some subject =>
      if negb (IsLoaded subject) then (INTERNAL_ERROR, chain)
      else if empty trusted_ then (ROOT_NOT_IN_LOCAL_STORE, chain)
      else
        let '(is_trusted, subject_name) := IsTrusted trusted_ subject "" in
        match is_trusted with
        | ROOT_NOT_IN_LOCAL_STORE =>
            let '(status, issuer_name) := DerEncodedIssuerName subject in
            match status with
            | Cert.ERROR => (INTERNAL_ERROR, chain)
            | Cert.TRUE =>
                if String.eqb subject_name issuer_name
                then (ROOT_NOT_IN_LOCAL_STORE, chain)
                else
                  let issuer_range := equal_range trusted_ issuer_name in
                  match find_issuer subject issuer_range with
                  | inl result => (result, chain)
                  | inr None => (ROOT_NOT_IN_LOCAL_STORE, chain)
                  | inr (Some issuer) =>
                      let '(added, chain) := AddCert chain (Clone issuer) in
                      match added with
                      | Cert.TRUE => (OK, chain)
                      | _ => (INTERNAL_ERROR, chain)
                      end
                  end
            | _ => (INVALID_CERTIFICATE_CHAIN, chain)
            end
        | _ => (is_trusted, chain)
        end
  end.

Definition CheckIssuerChain (trusted_ : TrustStore) (chain : CertChain)
  : util.Status * CertChain :=
  let '(trimmed, chain) := RemoveCertsAfterFirstSelfSigned chain in
  match trimmed with
  | Cert.TRUE =>
      match IsValidCaIssuerChainMaybeLegacyRoot chain with
      | Cert.FALSE =>
          (util.mkStatus util.error.INVALID_ARGUMENT
             "invalid certificate chain", chain)
      | Cert.TRUE =>
          match IsValidSignatureChain chain with
          | Cert.UNSUPPORTED_ALGORITHM =>
              (util.mkStatus util.error.INVALID_ARGUMENT
                 "unsupported algorithm in certificate chain", chain)
          | Cert.FALSE =>
              (util.mkStatus util.error.INVALID_ARGUMENT
                 "invalid certificate chain", chain)
          | Cert.TRUE =>
              let '(result, chain) := GetTrustedCa trusted_ chain in
              (GetVerifyError result, chain)
          | _ =>
              (util.mkStatus util.error.INTERNAL
                 "failed to check signature chain", chain)
          end
      | _ =>
          (util.mkStatus util.error.INTERNAL
             "failed to check issuer chain", chain)
      end
  | _ => (util.mkStatus util.error.INTERNAL "failed to trim chain", chain)
  end.

Definition CheckCertChain (trusted_ : TrustStore) (chain : option CertChain)
  : util.Status * option CertChain :=
  match chain with
  | None =>
      (util.mkStatus util.error.INVALID_ARGUMENT
         "invalid certificate chain", None)
  | Some c =>
      if negb (Chain_IsLoaded c)
      then (util.mkStatus util.error.INVALID_ARGUMENT
              "invalid certificate chain", Some c)
      else
        match HasCriticalExtension (LeafCert c) NID_ctPoison with
        | Cert.TRUE =>
            (util.mkStatus util.error.INVALID_ARGUMENT
               "precert extension in certificate chain", Some c)
        | Cert.FALSE =>
            let '(status, c) := CheckIssuerChain trusted_ c in
            (status, Some c)
        | _ => (util.mkStatus util.error.INTERNAL "internal error", Some c)
        end
  end.

Definition internal_error : util.Status :=
  util.mkStatus util.error.INTERNAL "internal error".

Definition CheckPreCertChain (trusted_ : TrustStore)
    (chain : option CertChain) (issuer_key_hash tbs_certificate : string)
  : util.Status * option CertChain * string * string :=
  match chain with
  | None =>
      (util.mkStatus util.error.INVALID_ARGUMENT
         "invalid certificate chain", None,
       issuer_key_hash, tbs_certificate)
  | Some c =>
      if negb (Chain_IsLoaded c)
      then (util.mkStatus util.error.INVALID_ARGUMENT
              "invalid certificate chain", Some c,
            issuer_key_hash, tbs_certificate)
      else
        match IsWellFormed c with
        | Cert.FALSE =>
            (util.mkStatus util.error.INVALID_ARGUMENT
               "prechain not well formed", Some c,
             issuer_key_hash, tbs_certificate)
        | Cert.TRUE =>
            let '(status, c) := CheckIssuerChain trusted_ c in
            if negb (util.ok status)
            then (status, Some c, issuer_key_hash, tbs_certificate)
            else
              let failed :=
                (internal_error, Some c, issuer_key_hash, tbs_certificate) in
              match UsesPrecertSigningCertificate c with
              | Cert.ERROR | Cert.UNSUPPORTED_ALGORITHM => failed
              | uses_pre_issuer =>
                  (* [None]: one of the two guarded returns was taken *)
                  let hashed :=
                    match uses_pre_issuer with
                    | Cert.TRUE =>
                        if (Length c <? 3)%N then None
                        else
                          match SPKISha256Digest (CertAt c 2) with
                          | (Cert.TRUE, key_hash) => Some key_hash
                          | _ => None
                          end
                    | _ =>
                        if (Length c <? 2)%N then None
                        else
                          match SPKISha256Digest (CertAt c 1) with
                          | (Cert.TRUE, key_hash) => Some key_hash
                          | _ => None
                          end
                    end in
                  match hashed with
                  | None => failed
                  | Some key_hash =>
                      let tbs := TbsCertificate_of (PreCert c) in
                      if negb (Tbs_IsLoaded tbs) then failed
                      else
                        let '(deleted, tbs) :=
                          DeleteExtension tbs NID_ctPoison in
                        match deleted with
                        | Cert.TRUE =>
                            let '(copied, tbs) :=
                              match uses_pre_issuer with
                              | Cert.TRUE =>
                                  CopyIssuerFrom tbs (PrecertIssuingCert c)
                              | _ => (Cert.TRUE, tbs)
                              end in
                            match copied with
                            | Cert.TRUE =>
                                match DerEncoding tbs with
                                | (Cert.TRUE, der_tbs) =>
                                    (util.Status_OK, Some c,
                                     key_hash, der_tbs)
                                | _ =>
                                    (util.mkStatus util.error.INTERNAL
                                       "could not DER-encode tbs certificate",
                                     Some c,
                                     issuer_key_hash, tbs_certificate)
                                end
                            | _ => failed
                            end
                        | _ => failed
                        end
                  end
              end
        | _ => (internal_error, Some c, issuer_key_hash, tbs_certificate)
        end
  end.

(** The reading loop of [LoadTrustedCertificatesFromBIO]; the result is
    [(error, certs_to_add, cert_count)] when the loop is left. *)
Fixpoint read_certs (trusted_ : TrustStore) (bio_in : BIO)
    (certs_to_add : list (string * Cert)) (cert_count : N)
  : bool * list (string * Cert) * N :=
  match bio_in with
  | [] => (false, certs_to_add, cert_count)
  | PEM_x509 cert :: rest =>
      let '(is_trusted, subject_name) := IsTrusted trusted_ cert "" in
      match is_trusted with
      | OK =>
          let cert_count := ((cert_count + 1) mod size_t_modulus)%N in
          read_certs trusted_ rest certs_to_add cert_count
      | ROOT_NOT_IN_LOCAL_STORE =>
          let cert_count := ((cert_count + 1) mod size_t_modulus)%N in
          read_certs trusted_ rest
            (certs_to_add ++ [(subject_name, cert)]) cert_count
      | _ => (true, certs_to_add, cert_count)
      end
  | PEM_bad_encoding :: _ => (true, certs_to_add, cert_count)
  end.

(** The final loop: [insert(certs_to_add.back())], [pop_back()], until
    the vector is empty. *)
Definition insert_from_back (trusted_ : TrustStore)
    (certs_to_add : list (string * Cert)) : TrustStore :=
  fold_left insert (rev certs_to_add) trusted_.

Definition LoadTrustedCertificatesFromBIO (trusted_ : TrustStore)
    (bio_in : BIO) : bool * TrustStore :=
  let '(error, certs_to_add, cert_count) :=
    read_certs trusted_ bio_in [] 0%N in
  if error || (cert_count =? 0)%N
  then (false, trusted_)
  else (true, insert_from_back trusted_ certs_to_add).

Definition ClearAllTrustedCertificates (trusted_ : TrustStore)
  : TrustStore := [].

End Checker.

End CertChecker.

(** ** [Database] *)

Module Database.

Inductive WriteResult : Set :=
| OK
| MISSING_CERTIFICATE_HASH
| DUPLICATE_CERTIFICATE_HASH
| ENTRY_NOT_FOUND
| SEQUENCE_NUMBER_ALREADY_IN_USE
| DUPLICATE_TREE_HEAD_TIMESTAMP
| MISSING_TREE_HEAD_TIMESTAMP.

(** Modelled from the spec: [ct::SignedTreeHead] is generated from
    [proto/ct.proto], which is not among the sources; the fields are those
    of the data model, (timestamp, tree_size, root_hash, signature), and
    the timestamp is an optional field ([has_timestamp]). *)
Record SignedTreeHead : Set := mkSignedTreeHead {
  timestamp : option N;
  tree_size : Z;
  sha256_root_hash : string;
  signature : string
}.

Definition has_timestamp (sth : SignedTreeHead) : bool :=
  match timestamp sth with
  | Some _ => true
  | None => false
  end.

(** The pure virtual [WriteTreeHead_] of a storage engine whose state has
    type [DB]. *)
Class Engine (DB : Type) : Type := {
  WriteTreeHead_ : DB -> SignedTreeHead -> WriteResult * DB
}.

Definition WriteTreeHead {DB : Type} {E : Engine DB}
    (db : DB) (sth : SignedTreeHead) : WriteResult * DB :=
  if negb (has_timestamp sth)
  then (MISSING_TREE_HEAD_TIMESTAMP, db)
  else WriteTreeHead_ db sth.

Definition same_timestamp (a b : SignedTreeHead) : bool :=
  match timestamp a, timestamp b with
  | Some x, Some y => (x =? y)%N
  | _, _ => false
  end.

(** Modelled from the spec: the concrete engines behind [WriteTreeHead_]
    are not among the sources.  The contract of the engine: it fails with
    MISSING_TREE_HEAD_TIMESTAMP if the timestamp is unset, with
    DUPLICATE_TREE_HEAD_TIMESTAMP if a tree head with that timestamp is
    already stored, and otherwise stores the tree head; it does not compare
    the timestamp with those of prior tree heads in any other way. *)
Definition contract_WriteTreeHead_ (db : list SignedTreeHead)
    (sth : SignedTreeHead) : WriteResult * list SignedTreeHead :=
  if negb (has_timestamp sth) then (MISSING_TREE_HEAD_TIMESTAMP, db)
  else if existsb (same_timestamp sth) db
  then (DUPLICATE_TREE_HEAD_TIMESTAMP, db)
  else (OK, db ++ [sth]).

#[export] Instance contract_engine : Engine (list SignedTreeHead) := {
  WriteTreeHead_ := contract_WriteTreeHead_
}.

(** An engine that accepts everything and counts the calls that reach
    it. *)
Definition counting_engine : Engine nat := {|
  WriteTreeHead_ := fun calls _ => (OK, S calls)
|}.

(** The part of the template parameter [Logged] that
    [CreateSequencedEntry] looks at; [sequence_number] is an [int64_t]. *)
Class LoggedEntry (Logged : Type) : Type := {
  has_sequence_number : Logged -> bool;
  sequence_number : Logged -> Z
}.

(** The pure virtual [CreateSequencedEntry_] of a storage engine whose state
    has type [DB]. *)
Class SequencingEngine (DB Logged : Type) : Type := {
  CreateSequencedEntry_ : DB -> Logged -> WriteResult * DB
}.

(** A failing [CHECK] or [CHECK_GE] ends the process: the call has no result,
    [None]. *)
Definition CreateSequencedEntry {DB Logged : Type} {L : LoggedEntry Logged}
    {E : SequencingEngine DB Logged} (db : DB) (logged : Logged)
  : option (WriteResult * DB) :=
  if negb (has_sequence_number logged) then None
  else if negb (sequence_number logged >=? 0)%Z then None
  else Some (CreateSequencedEntry_ db logged).

End Database.

(** ** A concrete capability set

    A small instance of [CertLib] on which the checker can be run: a
    certificate records what each of its capability calls answers, a chain is
    a list of certificates, leaf first, together with the verdicts of the
    chain-level predicates. *)

Module Sample.

Record cert : Type := mk_cert {
  c_loaded : bool;
  c_der : string;
  c_subject : Cert.Status * string;
  c_issuer : Cert.Status * string;
  c_poison : Cert.Status;
  c_spki : Cert.Status * string;
  (** the verdict of [IsSignedBy], by the DER of the candidate signer;
      [Cert.FALSE] for a signer that is not listed *)
  c_verify : list (string * Cert.Status)
}.

Record chain : Type := mk_chain {
  certs : list cert;
  trim : Cert.Status;
  ca_issuer_chain : Cert.Status;
  signature_chain : Cert.Status;
  well_formed : Cert.Status;
  uses_signing_cert : Cert.Status
}.

Record tbs : Type := mk_tbs {
  t_loaded : bool;
  t_der : string;
  t_issuer : string;
  t_poison : bool
}.

Definition unloaded : cert :=
  mk_cert false "" (Cert.ERROR, "") (Cert.ERROR, "") Cert.ERROR
    (Cert.ERROR, "") [].

Fixpoint verdict (signer : string) (table : list (string * Cert.Status))
  : Cert.Status :=
  match table with
  | [] => Cert.FALSE
  | (der, v) :: rest => if String.eqb der signer then v else verdict signer rest
  end.

Definition poison_nid : Z := 1000%Z.

Definition add_cert (c : chain) (x : cert) : Cert.Status * chain :=
  if c_loaded x
  then (Cert.TRUE,
        mk_chain (certs c ++ [x]) (trim c) (ca_issuer_chain c)
          (signature_chain c) (well_formed c) (uses_signing_cert c))
  else (Cert.FALSE, c).

Definition last_cert (c : chain) : option cert :=
  match certs c with
  | [] => None
  | x :: rest => Some (last rest x)
  end.

Definition delete_extension (t : tbs) (nid : Z) : Cert.Status * tbs :=
  if (nid =? poison_nid)%Z && t_poison t
  then (Cert.TRUE, mk_tbs (t_loaded t) (t_der t) (t_issuer t) false)
  else (Cert.FALSE, t).

Definition copy_issuer_from (t : tbs) (from : cert) : Cert.Status * tbs :=
  match c_issuer from with
  | (Cert.TRUE, name) =>
      (Cert.TRUE, mk_tbs (t_loaded t) (t_der t) name (t_poison t))
  | _ => (Cert.ERROR, t)
  end.

Definition der_encoding (t : tbs) : Cert.Status * string :=
  if t_poison t
  then (Cert.TRUE, "tbs:" ++ t_der t ++ ":issuer=" ++ t_issuer t ++ ":poison")%string
  else (Cert.TRUE, "tbs:" ++ t_der t ++ ":issuer=" ++ t_issuer t)%string.

#[export] Instance lib : CertLib := {
  Cert := cert;
  CertChain := chain;
  TbsCertificate := tbs;
  NID_ctPoison := poison_nid;
  IsLoaded := c_loaded;
  Clone := fun c => c;
  IsIdenticalTo := fun a b => String.eqb (c_der a) (c_der b);
  DerEncodedSubjectName := c_subject;
  DerEncodedIssuerName := c_issuer;
  HasCriticalExtension :=
    fun c nid => if (nid =? poison_nid)%Z then c_poison c else Cert.FALSE;
  IsSignedBy := fun c signer => verdict (c_der signer) (c_verify c);
  SPKISha256Digest := c_spki;
  Chain_IsLoaded :=
    fun c => match certs c with [] => false | _ :: _ => true end;
  Length := fun c => N.of_nat (List.length (certs c));
  CertAt := fun c i => nth (N.to_nat i) (certs c) unloaded;
  LeafCert := fun c => nth 0 (certs c) unloaded;
  LastCert := last_cert;
  AddCert := add_cert;
  RemoveCertsAfterFirstSelfSigned := fun c => (trim c, c);
  IsValidCaIssuerChainMaybeLegacyRoot := ca_issuer_chain;
  IsValidSignatureChain := signature_chain;
  IsWellFormed := well_formed;
  UsesPrecertSigningCertificate := uses_signing_cert;
  PreCert := fun c => nth 0 (certs c) unloaded;
  PrecertIssuingCert := fun c => nth 1 (certs c) unloaded;
  TbsCertificate_of :=
    fun c =>
      mk_tbs (c_loaded c) (c_der c) (snd (c_issuer c))
        match c_poison c with Cert.TRUE => true | _ => false end;
  Tbs_IsLoaded := t_loaded;
  DeleteExtension := delete_extension;
  CopyIssuerFrom := copy_issuer_from;
  DerEncoding := der_encoding
}.

(** A certificate with the given DER, subject and issuer names, SPKI
    digest and signature verdicts; no poison extension. *)
Definition plain (der subject issuer spki : string)
    (verify : list (string * Cert.Status)) : cert :=
  mk_cert true der (Cert.TRUE, subject) (Cert.TRUE, issuer) Cert.FALSE
    (Cert.TRUE, spki) verify.

Definition poisoned (c : cert) : cert :=
  mk_cert (c_loaded c) (c_der c) (c_subject c) (c_issuer c) Cert.TRUE
    (c_spki c) (c_verify c).

(** A chain all of whose chain-level predicates answer TRUE, except that it
    uses a Precertificate Signing Certificate only when [signing] says so. *)
Definition valid_chain (l : list cert) (signing : Cert.Status) : chain :=
  mk_chain l Cert.TRUE Cert.TRUE Cert.TRUE Cert.TRUE signing.

Definition root : cert := plain "der-root" "CN=Root" "CN=Root" "spki-root" [("der-root", Cert.TRUE)].
Definition root' : cert := plain "der-root2" "CN=Root" "CN=Root" "spki-root2" [("der-root2", Cert.TRUE)].
Definition ca : cert := plain "der-ca" "CN=CA" "CN=Root" "spki-ca" [("der-root", Cert.TRUE); ("der-root2", Cert.TRUE)].
Definition signing_cert : cert := plain "der-psc" "CN=PSC" "CN=CA" "spki-psc" [("der-ca", Cert.TRUE)].
Definition leaf : cert := plain "der-leaf" "CN=leaf" "CN=CA" "spki-leaf" [("der-ca", Cert.TRUE)].
Definition precert : cert := poisoned (plain "der-pre" "CN=leaf" "CN=CA" "spki-pre" [("der-ca", Cert.TRUE)]).
Definition precert_by_signing_cert : cert :=
  poisoned (plain "der-pre2" "CN=leaf" "CN=PSC" "spki-pre2" [("der-psc", Cert.TRUE)]).
(** signed with an algorithm that the verifier rejects *)
Definition weak_ca : cert := plain "der-weak" "CN=Weak" "CN=Root" "spki-weak" [("der-root", Cert.UNSUPPORTED_ALGORITHM); ("der-root2", Cert.TRUE)].

(** verifies against the second root only *)
Definition cross_ca : cert := plain "der-cross" "CN=Cross" "CN=Root" "spki-cross" [("der-root2", Cert.TRUE)].
(** names the root as issuer but verifies against no trusted entry *)
Definition orphan_ca : cert := plain "der-orphan" "CN=Orphan" "CN=Root" "spki-orphan" [].
(** the presence of the poison extension cannot be determined *)
Definition undetermined : cert :=
  mk_cert true "der-und" (Cert.TRUE, "CN=und") (Cert.TRUE, "CN=CA") Cert.ERROR
    (Cert.TRUE, "spki-und") [("der-ca", Cert.TRUE)].

(** the subject name cannot be extracted, without an error being raised *)
Definition nameless : cert :=
  mk_cert true "der-nameless" (Cert.FALSE, "") (Cert.TRUE, "CN=Root") Cert.FALSE
    (Cert.TRUE, "spki-nameless") [("der-root", Cert.TRUE)].
(** self-signed under the name of the root, with other bytes, and its
    signature verifies against the root *)
Definition rekeyed_root : cert := plain "der-root3" "CN=Root" "CN=Root" "spki-root3" [("der-root", Cert.TRUE)].
(** the signature check against the root fails with an error *)
Definition broken_ca : cert := plain "der-broken" "CN=Broken" "CN=Root" "spki-broken" [("der-root", Cert.ERROR); ("der-root2", Cert.TRUE)].
(** issued by a trusted entry that cannot be added to a chain *)
Definition ghost_ca : cert := plain "der-ghost-ca" "CN=GhostCA" "CN=Ghost" "spki-ghost-ca" [("", Cert.TRUE)].
Definition ghost_store : list (string * cert) := [("CN=Ghost", unloaded)].

(** A logged entry: its sequence number, if it has one, and its hash. *)
Record logged : Type := mk_logged {
  l_sequence : option Z;
  l_hash : string
}.

Definition logged_entry : Database.LoggedEntry logged := {|
  Database.has_sequence_number :=
    fun l => match l_sequence l with Some _ => true | None => false end;
  Database.sequence_number :=
    fun l => match l_sequence l with Some n => n | None => 0%Z end
|}.

(** An engine that stores every entry it is given. *)
Definition storing_engine : Database.SequencingEngine (list logged) logged := {|
  Database.CreateSequencedEntry_ := fun db l => (Database.OK, db ++ [l])
|}.

Definition no_certs : chain := valid_chain [] Cert.FALSE.
Definition weak_chain : chain := valid_chain [leaf; weak_ca] Cert.FALSE.
Definition signed_prechain : chain :=
  valid_chain [precert_by_signing_cert; signing_cert; ca] Cert.TRUE.
Definition direct_prechain : chain := valid_chain [precert; ca] Cert.FALSE.
(** claims to use a signing certificate but ends, after the issuer-chain
    checks, two certificates long *)
Definition short_prechain : chain :=
  valid_chain [precert_by_signing_cert; root] Cert.TRUE.
(** whether its issuer is a signing certificate cannot be determined *)
Definition undetermined_prechain : chain :=
  valid_chain [precert; ca] Cert.ERROR.

Definition one_root : list (string * cert) := [("CN=Root", root)].
Definition two_roots : list (string * cert) :=
  [("CN=Root", root); ("CN=Root", root')].

End Sample.

(** ** Vocabulary of the statements *)

Import CertChecker.

(** The certificates of a source that the trust store [trusted_] does not
    hold yet, each with its subject name, in the order of the source.  Only
    used to state what a successful load inserts. *)
Definition not_yet_trusted {CL : CertLib} (trusted_ : TrustStore) (bio_in : BIO)
  : list (string * Cert) :=
  flat_map
    (fun read =>
       match read with
       | PEM_x509 cert =>
           match IsTrusted trusted_ cert "" with
           | (ROOT_NOT_IN_LOCAL_STORE, subject_name) => [(subject_name, cert)]
           | _ => []
           end
       | PEM_bad_encoding => []
       end)
    bio_in.

(** * Properties *)

(** Case analysis on whatever the goal or a hypothesis still matches on. *)
Ltac split_match :=
  match goal with
  | |- context [match ?x with _ => _ end] => destruct x eqn:?
  | H : context [match ?x with _ => _ end] |- _ => destruct x eqn:?
  end.

(** ** The trust store *)

Section TrustStoreFacts.
Context {CL : CertLib}.

Lemma In_equal_range (trusted_ : TrustStore) (key : string) (entry : string * Cert) :
  In entry (equal_range trusted_ key) <-> In entry trusted_ /\ fst entry = key.
Proof.
  unfold equal_range. rewrite filter_In, String.eqb_eq. reflexivity.
Qed.

Lemma equal_range_app (t1 t2 : TrustStore) (key : string) :
  equal_range (t1 ++ t2) key = equal_range t1 key ++ equal_range t2 key.
Proof. apply filter_app. Qed.

(** An inserted entry comes last among the entries of its key. *)
Lemma equal_range_insert (trusted_ : TrustStore) (entry : string * Cert) (key : string) :
  equal_range (insert trusted_ entry) key =
  if String.eqb (fst entry) key
  then equal_range trusted_ key ++ [entry]
  else equal_range trusted_ key.
Proof.
  unfold insert. rewrite equal_range_app. unfold equal_range at 2. simpl.
  destruct (String.eqb (fst entry) key); [reflexivity | apply app_nil_r].
Qed.

Lemma identical_in_true (cert : Cert) (range : list (string * Cert)) :
  identical_in cert range = true <->
  exists entry, In entry range /\ IsIdenticalTo cert (snd entry) = true.
Proof.
  induction range as [|it rest IH]; simpl.
  - split; [discriminate | intros [? [[] _]]].
  - destruct (IsIdenticalTo cert (snd it)) eqn:E.
    + split; [intros _; exists it; auto | reflexivity].
    + rewrite IH. split.
      * intros [e [Hin He]]. exists e. auto.
      * intros [e [[->|Hin] He]]; [congruence | exists e; auto].
Qed.

Lemma identical_in_app (cert : Cert) (r1 r2 : list (string * Cert)) :
  identical_in cert (r1 ++ r2) = identical_in cert r1 || identical_in cert r2.
Proof.
  induction r1 as [|it rest IH]; simpl; [reflexivity|].
  destruct (IsIdenticalTo cert (snd it)); [reflexivity | exact IH].
Qed.

(** [IsTrusted] on a certificate whose subject name is available. *)
Lemma IsTrusted_named (trusted_ : TrustStore) (cert : Cert) (name old : string) :
  DerEncodedSubjectName cert = (Cert.TRUE, name) ->
  IsTrusted trusted_ cert old =
  (if identical_in cert (equal_range trusted_ name)
   then OK else ROOT_NOT_IN_LOCAL_STORE, name).
Proof.
  intros Hname. unfold IsTrusted. rewrite Hname.
  destruct (identical_in cert (equal_range trusted_ name)); reflexivity.
Qed.

(** Whatever [IsTrusted] answers with OK or ROOT_NOT_IN_LOCAL_STORE, the
    subject name was available and is what the out-parameter holds. *)
Lemma IsTrusted_classified (trusted_ : TrustStore) (cert : Cert) (old name : string)
    (r : CertVerifyResult) :
  IsTrusted trusted_ cert old = (r, name) ->
  r = OK \/ r = ROOT_NOT_IN_LOCAL_STORE ->
  DerEncodedSubjectName cert = (Cert.TRUE, name).
Proof.
  unfold IsTrusted. destruct (DerEncodedSubjectName cert) as [status cert_name].
  destruct status;
    try (intros H [Hr|Hr]; inversion H; subst; discriminate).
  destruct (identical_in _ _); intros H _; inversion H; reflexivity.
Qed.

End TrustStoreFacts.

(** C8. For a certificate whose subject name can be computed, [IsTrusted]
    answers OK exactly when some trusted entry stored under that subject name
    is identical to the certificate ([IsIdenticalTo]); otherwise it answers
    ROOT_NOT_IN_LOCAL_STORE, in particular when every entry stored under that
    name differs from the certificate.  The out-parameter receives the subject
    name. *)
Theorem IsTrusted_byte_identical {CL : CertLib}
    (trusted_ : TrustStore) (cert : Cert) (name old : string) :
  DerEncodedSubjectName cert = (Cert.TRUE, name) ->
  (fst (IsTrusted trusted_ cert old) = OK <->
   exists cand, In (name, cand) trusted_ /\ IsIdenticalTo cert cand = true)
  /\ (fst (IsTrusted trusted_ cert old) <> OK ->
      fst (IsTrusted trusted_ cert old) = ROOT_NOT_IN_LOCAL_STORE)
  /\ ((forall cand, In (name, cand) trusted_ -> IsIdenticalTo cert cand = false) ->
      fst (IsTrusted trusted_ cert old) = ROOT_NOT_IN_LOCAL_STORE)
  /\ snd (IsTrusted trusted_ cert old) = name.
Proof.
  intros Hname. rewrite (IsTrusted_named _ _ _ _ Hname). simpl.
  destruct (identical_in cert (equal_range trusted_ name)) eqn:E.
  - apply identical_in_true in E. destruct E as [[k cand] [Hin Hid]].
    apply In_equal_range in Hin. destruct Hin as [Hin Hk]. simpl in *. subst k.
    repeat split; try congruence.
    + intros _. exists cand. auto.
    + intros Hall. rewrite (Hall _ Hin) in Hid. discriminate.
  - repeat split; try congruence.
    intros [cand [Hin Hid]].
    assert (identical_in cert (equal_range trusted_ name) = true) as E'.
    { apply identical_in_true. exists (name, cand). split; [|exact Hid].
      apply In_equal_range. auto. }
    congruence.
Qed.

(** A same-name entry with other bytes does not make [root'] trusted, the
    identical entry does. *)
Lemma IsTrusted_byte_identical_witness :
  DerEncodedSubjectName (CertLib := Sample.lib) Sample.root' = (Cert.TRUE, "CN=Root")
  /\ fst (IsTrusted (CL := Sample.lib) [("CN=Root", Sample.root)] Sample.root' "")
     = ROOT_NOT_IN_LOCAL_STORE
  /\ fst (IsTrusted (CL := Sample.lib)
            [("CN=Root", Sample.root); ("CN=Root", Sample.root')] Sample.root' "")
     = OK.
Proof.
  split; [reflexivity|]. split.
  - destruct (IsTrusted_byte_identical (CL := Sample.lib)
                [("CN=Root", Sample.root)] Sample.root' "CN=Root" "" eq_refl)
      as (_ & _ & H & _).
    apply H. intros cand [Heq|[]]. inversion Heq. reflexivity.
  - destruct (IsTrusted_byte_identical (CL := Sample.lib)
                [("CN=Root", Sample.root); ("CN=Root", Sample.root')]
                Sample.root' "CN=Root" "" eq_refl)
      as (H & _).
    apply H. exists Sample.root'. split; [right; left; reflexivity | reflexivity].
Defined.

(** ** [GetTrustedCa] *)

Section GetTrustedCaFacts.
Context {CL : CertLib}.

(** Candidates that do not verify are passed over. *)
Lemma find_issuer_skip (subject : Cert) (before rest : list (string * Cert)) :
  (forall cand, In cand before -> IsSignedBy subject (snd cand) = Cert.FALSE) ->
  find_issuer subject (before ++ rest) = find_issuer subject rest.
Proof.
  induction before as [|it before IH]; intros Hfalse; simpl; [reflexivity|].
  rewrite (Hfalse it (or_introl eq_refl)).
  apply IH. intros cand Hin. apply Hfalse. right. exact Hin.
Qed.

Lemma find_issuer_none (subject : Cert) (range : list (string * Cert)) :
  (forall cand, In cand range -> IsSignedBy subject (snd cand) = Cert.FALSE) ->
  find_issuer subject range = inr None.
Proof.
  intros Hfalse. rewrite <- (app_nil_r range).
  rewrite find_issuer_skip by exact Hfalse. reflexivity.
Qed.

(** The path of [GetTrustedCa] down to the candidate scan. *)
Lemma GetTrustedCa_scan (trusted_ : TrustStore) (chain : CertChain)
    (subject : Cert) (subject_name issuer_name : string) :
  LastCert chain = Some subject ->
  IsLoaded subject = true ->
  empty trusted_ = false ->
  IsTrusted trusted_ subject "" = (ROOT_NOT_IN_LOCAL_STORE, subject_name) ->
  DerEncodedIssuerName subject = (Cert.TRUE, issuer_name) ->
  subject_name <> issuer_name ->
  GetTrustedCa trusted_ chain =
  match find_issuer subject (equal_range trusted_ issuer_name) with
  | inl result => (result, chain)
  | inr None => (ROOT_NOT_IN_LOCAL_STORE, chain)
  | inr (Some issuer) =>
      match AddCert chain (Clone issuer) with
      | (Cert.TRUE, chain') => (OK, chain')
      | (_, chain') => (INTERNAL_ERROR, chain')
      end
  end.
Proof.
  intros Hlast Hloaded Hne Htrusted Hissuer Hdiff.
  unfold GetTrustedCa. rewrite Hlast, Hloaded, Hne, Htrusted, Hissuer. simpl.
  apply String.eqb_neq in Hdiff. rewrite Hdiff.
  destruct (find_issuer subject (equal_range trusted_ issuer_name))
    as [result|[issuer|]]; reflexivity.
Qed.

Lemma equal_range_nonempty (trusted_ : TrustStore) (key : string)
    (before after : list (string * Cert)) (cand : string * Cert) :
  equal_range trusted_ key = before ++ cand :: after ->
  empty trusted_ = false.
Proof.
  destruct trusted_; [|reflexivity].
  simpl. intros H. destruct before; discriminate.
Qed.

End GetTrustedCaFacts.

(** C1, as the code has it.  For a chain whose last certificate is loaded, is
    not a verbatim trusted entry and has an issuer name different from its
    subject name, [GetTrustedCa] scans the trusted entries stored under the
    issuer name in insertion order.  When the candidates before the first one
    that verifies all answer FALSE, the clone of that first one is handed to
    [AddCert], and if [AddCert] accepts it the result is OK with the extended
    chain.  When every candidate answers FALSE the result is
    ROOT_NOT_IN_LOCAL_STORE and the chain is unchanged. *)
Theorem GetTrustedCa_first_verifying_candidate {CL : CertLib}
    (trusted_ : TrustStore) (chain : CertChain) (subject : Cert)
    (subject_name issuer_name : string) :
  LastCert chain = Some subject ->
  IsLoaded subject = true ->
  IsTrusted trusted_ subject "" = (ROOT_NOT_IN_LOCAL_STORE, subject_name) ->
  DerEncodedIssuerName subject = (Cert.TRUE, issuer_name) ->
  subject_name <> issuer_name ->
  (forall before issuer_cand after chain',
      equal_range trusted_ issuer_name = before ++ issuer_cand :: after ->
      (forall cand, In cand before -> IsSignedBy subject (snd cand) = Cert.FALSE) ->
      IsSignedBy subject (snd issuer_cand) = Cert.TRUE ->
      AddCert chain (Clone (snd issuer_cand)) = (Cert.TRUE, chain') ->
      GetTrustedCa trusted_ chain = (OK, chain'))
  /\ ((forall cand, In cand (equal_range trusted_ issuer_name) ->
                    IsSignedBy subject (snd cand) = Cert.FALSE) ->
      GetTrustedCa trusted_ chain = (ROOT_NOT_IN_LOCAL_STORE, chain)).
Proof.
  intros Hlast Hloaded Htrusted Hissuer Hdiff. split.
  - intros before issuer_cand after chain' Hrange Hbefore Hcand Hadd.
    rewrite (GetTrustedCa_scan _ _ _ _ _ Hlast Hloaded
               (equal_range_nonempty _ _ _ _ _ Hrange) Htrusted Hissuer Hdiff).
    rewrite Hrange, (find_issuer_skip _ _ _ Hbefore). simpl.
    rewrite Hcand, Hadd. reflexivity.
  - intros Hall. destruct (empty trusted_) eqn:Hempty.
    + unfold GetTrustedCa. rewrite Hlast, Hloaded, Hempty. reflexivity.
    + rewrite (GetTrustedCa_scan _ _ _ _ _ Hlast Hloaded Hempty Htrusted
                 Hissuer Hdiff).
      rewrite (find_issuer_none _ _ Hall). reflexivity.
Qed.

(** With both roots trusted, [cross_ca] does not verify against the first and
    is completed with the second; [orphan_ca] verifies against neither. *)
Lemma GetTrustedCa_first_verifying_candidate_witness :
  GetTrustedCa (CL := Sample.lib) Sample.two_roots
    (Sample.valid_chain [Sample.leaf; Sample.cross_ca] Cert.FALSE)
  = (OK, Sample.valid_chain [Sample.leaf; Sample.cross_ca; Sample.root'] Cert.FALSE)
  /\ GetTrustedCa (CL := Sample.lib) Sample.two_roots
       (Sample.valid_chain [Sample.leaf; Sample.orphan_ca] Cert.FALSE)
     = (ROOT_NOT_IN_LOCAL_STORE,
        Sample.valid_chain [Sample.leaf; Sample.orphan_ca] Cert.FALSE).
Proof.
  split.
  - destruct (GetTrustedCa_first_verifying_candidate (CL := Sample.lib)
                Sample.two_roots
                (Sample.valid_chain [Sample.leaf; Sample.cross_ca] Cert.FALSE)
                Sample.cross_ca "CN=Cross" "CN=Root"
                eq_refl eq_refl eq_refl eq_refl)
      as [Hfound _]; [discriminate|].
    apply (Hfound [("CN=Root", Sample.root)] ("CN=Root", Sample.root') []).
    + reflexivity.
    + intros cand [<-|[]]. reflexivity.
    + reflexivity.
    + reflexivity.
  - destruct (GetTrustedCa_first_verifying_candidate (CL := Sample.lib)
                Sample.two_roots
                (Sample.valid_chain [Sample.leaf; Sample.orphan_ca] Cert.FALSE)
                Sample.orphan_ca "CN=Orphan" "CN=Root"
                eq_refl eq_refl eq_refl eq_refl)
      as [_ Hnone]; [discriminate|].
    apply Hnone. intros cand [<-|[<-|[]]]; reflexivity.
Defined.

(** C1 fails as stated: the only candidate for [weak_ca] does not verify (the
    check reports an unsupported algorithm), yet the result is not
    ROOT_NOT_IN_LOCAL_STORE. *)
Lemma GetTrustedCa_no_candidate_verifies_counterexample :
  LastCert (CertLib := Sample.lib) Sample.weak_chain = Some Sample.weak_ca
  /\ IsTrusted (CL := Sample.lib) Sample.one_root Sample.weak_ca ""
     = (ROOT_NOT_IN_LOCAL_STORE, "CN=Weak")
  /\ DerEncodedIssuerName (CertLib := Sample.lib) Sample.weak_ca
     = (Cert.TRUE, "CN=Root")
  /\ (forall cand, In cand (equal_range (CL := Sample.lib) Sample.one_root "CN=Root") ->
                   IsSignedBy (CertLib := Sample.lib) Sample.weak_ca (snd cand)
                   <> Cert.TRUE)
  /\ GetTrustedCa (CL := Sample.lib) Sample.one_root Sample.weak_chain
     = (UNSUPPORTED_ALGORITHM_IN_CERT_CHAIN, Sample.weak_chain)
  /\ fst (GetTrustedCa (CL := Sample.lib) Sample.one_root Sample.weak_chain)
     <> ROOT_NOT_IN_LOCAL_STORE.
Proof.
  repeat split; try reflexivity; try discriminate.
  intros cand [<-|[]]. discriminate.
Qed.

(** C5, as the code has it.  For a chain whose last certificate is present and
    loaded, [GetTrustedCa] on an empty trust store answers
    ROOT_NOT_IN_LOCAL_STORE and leaves the chain alone. *)
Theorem GetTrustedCa_empty_store {CL : CertLib}
    (trusted_ : TrustStore) (chain : CertChain) (subject : Cert) :
  empty trusted_ = true ->
  LastCert chain = Some subject ->
  IsLoaded subject = true ->
  GetTrustedCa trusted_ chain = (ROOT_NOT_IN_LOCAL_STORE, chain).
Proof.
  intros Hempty Hlast Hloaded.
  unfold GetTrustedCa. rewrite Hlast, Hloaded, Hempty. reflexivity.
Qed.

Lemma GetTrustedCa_empty_store_witness :
  GetTrustedCa (CL := Sample.lib) []
    (Sample.valid_chain [Sample.leaf; Sample.ca] Cert.FALSE)
  = (ROOT_NOT_IN_LOCAL_STORE,
     Sample.valid_chain [Sample.leaf; Sample.ca] Cert.FALSE).
Proof.
  apply (GetTrustedCa_empty_store (CL := Sample.lib) [] _ Sample.ca);
    reflexivity.
Defined.

(** C5 fails as stated: the check that the chain has a loaded last certificate
    comes before the check for an empty store, so a chain without certificates
    gets INTERNAL_ERROR although the store is empty. *)
Lemma GetTrustedCa_empty_store_counterexample :
  empty (CL := Sample.lib) [] = true
  /\ GetTrustedCa (CL := Sample.lib) [] Sample.no_certs
     = (INTERNAL_ERROR, Sample.no_certs)
  /\ fst (GetTrustedCa (CL := Sample.lib) [] Sample.no_certs)
     <> ROOT_NOT_IN_LOCAL_STORE.
Proof.
  repeat split; try reflexivity. discriminate.
Qed.

(** ** [CheckIssuerChain] and [CheckCertChain] *)

(** C6. An unsupported-algorithm verdict of the signature check is classified
    as an invalid argument, never as an internal error:
    - when [IsValidSignatureChain] reports it, [CheckIssuerChain] returns
      INVALID_ARGUMENT, "unsupported algorithm in certificate chain";
    - when [IsSignedBy] reports it for a candidate that the scan of
      [GetTrustedCa] reaches, the scan ends there with
      UNSUPPORTED_ALGORITHM_IN_CERT_CHAIN whatever candidates remain, and
      [CheckIssuerChain] turns that verdict into an INVALID_ARGUMENT status. *)
Theorem unsupported_algorithm_is_invalid_argument {CL : CertLib}
    (trusted_ : TrustStore) (chain trimmed : CertChain) :
  RemoveCertsAfterFirstSelfSigned chain = (Cert.TRUE, trimmed) ->
  IsValidCaIssuerChainMaybeLegacyRoot trimmed = Cert.TRUE ->
  (IsValidSignatureChain trimmed = Cert.UNSUPPORTED_ALGORITHM ->
   CheckIssuerChain trusted_ chain =
   (util.mkStatus util.error.INVALID_ARGUMENT
      "unsupported algorithm in certificate chain", trimmed))
  /\ (forall subject subject_name issuer_name before cand after,
        LastCert trimmed = Some subject ->
        IsLoaded subject = true ->
        IsTrusted trusted_ subject "" = (ROOT_NOT_IN_LOCAL_STORE, subject_name) ->
        DerEncodedIssuerName subject = (Cert.TRUE, issuer_name) ->
        subject_name <> issuer_name ->
        equal_range trusted_ issuer_name = before ++ cand :: after ->
        (forall c, In c before -> IsSignedBy subject (snd c) = Cert.FALSE) ->
        IsSignedBy subject (snd cand) = Cert.UNSUPPORTED_ALGORITHM ->
        GetTrustedCa trusted_ trimmed =
        (UNSUPPORTED_ALGORITHM_IN_CERT_CHAIN, trimmed)
        /\ (IsValidSignatureChain trimmed = Cert.TRUE ->
            CheckIssuerChain trusted_ chain =
            (util.mkStatus util.error.INVALID_ARGUMENT
               "invalid certificate chain", trimmed))).
Proof.
  intros Htrim Hca. split.
  - intros Hsig. unfold CheckIssuerChain. rewrite Htrim, Hca, Hsig. reflexivity.
  - intros subject subject_name issuer_name before cand after
      Hlast Hloaded Htrusted Hissuer Hdiff Hrange Hbefore Hcand.
    assert (GetTrustedCa trusted_ trimmed =
            (UNSUPPORTED_ALGORITHM_IN_CERT_CHAIN, trimmed)) as Hca'.
    { rewrite (GetTrustedCa_scan _ _ _ _ _ Hlast Hloaded
                 (equal_range_nonempty _ _ _ _ _ Hrange) Htrusted Hissuer Hdiff).
      rewrite Hrange, (find_issuer_skip _ _ _ Hbefore). simpl.
      rewrite Hcand. reflexivity. }
    split; [exact Hca'|].
    intros Hsig. unfold CheckIssuerChain. rewrite Htrim, Hca, Hsig, Hca'.
    reflexivity.
Qed.

(** A chain whose signature chain uses an unsupported algorithm; and
    [weak_ca], whose first candidate root reports an unsupported algorithm
    although the second one would verify. *)
Lemma unsupported_algorithm_is_invalid_argument_witness :
  CheckIssuerChain (CL := Sample.lib) Sample.two_roots
    (Sample.mk_chain [Sample.leaf; Sample.ca] Cert.TRUE Cert.TRUE
       Cert.UNSUPPORTED_ALGORITHM Cert.TRUE Cert.FALSE)
  = (util.mkStatus util.error.INVALID_ARGUMENT
       "unsupported algorithm in certificate chain",
     Sample.mk_chain [Sample.leaf; Sample.ca] Cert.TRUE Cert.TRUE
       Cert.UNSUPPORTED_ALGORITHM Cert.TRUE Cert.FALSE)
  /\ GetTrustedCa (CL := Sample.lib) Sample.two_roots Sample.weak_chain
     = (UNSUPPORTED_ALGORITHM_IN_CERT_CHAIN, Sample.weak_chain)
  /\ CheckIssuerChain (CL := Sample.lib) Sample.two_roots Sample.weak_chain
     = (util.mkStatus util.error.INVALID_ARGUMENT "invalid certificate chain",
        Sample.weak_chain).
Proof.
  split.
  - apply (unsupported_algorithm_is_invalid_argument (CL := Sample.lib));
      reflexivity.
  - destruct (unsupported_algorithm_is_invalid_argument (CL := Sample.lib)
                Sample.two_roots Sample.weak_chain Sample.weak_chain
                eq_refl eq_refl) as [_ Hscan].
    destruct (Hscan Sample.weak_ca "CN=Weak" "CN=Root"
                [] ("CN=Root", Sample.root) [("CN=Root", Sample.root')])
      as [Hca Hstatus]; try reflexivity.
    + discriminate.
    + intros c [].
    + split; [exact Hca | apply Hstatus; reflexivity].
Defined.

(** C7. For a loaded chain, [CheckCertChain] looks at the poison extension of
    the leaf first: TRUE gives INVALID_ARGUMENT, "precert extension in
    certificate chain", which is not the status of the generic
    INVALID_CERTIFICATE_CHAIN verdict, with the chain untouched (the
    issuer-chain checks are not run); FALSE hands the chain to
    [CheckIssuerChain]; anything else gives INTERNAL, "internal error", with
    the chain untouched. *)
Theorem CheckCertChain_poison_extension {CL : CertLib}
    (trusted_ : TrustStore) (chain : CertChain) :
  Chain_IsLoaded chain = true ->
  (HasCriticalExtension (LeafCert chain) NID_ctPoison = Cert.TRUE ->
   CheckCertChain trusted_ (Some chain) =
   (util.mkStatus util.error.INVALID_ARGUMENT
      "precert extension in certificate chain", Some chain)
   /\ fst (CheckCertChain trusted_ (Some chain)) <>
      GetVerifyError INVALID_CERTIFICATE_CHAIN)
  /\ (HasCriticalExtension (LeafCert chain) NID_ctPoison = Cert.FALSE ->
      CheckCertChain trusted_ (Some chain) =
      (fst (CheckIssuerChain trusted_ chain),
       Some (snd (CheckIssuerChain trusted_ chain))))
  /\ (HasCriticalExtension (LeafCert chain) NID_ctPoison <> Cert.TRUE ->
      HasCriticalExtension (LeafCert chain) NID_ctPoison <> Cert.FALSE ->
      CheckCertChain trusted_ (Some chain) =
      (util.mkStatus util.error.INTERNAL "internal error", Some chain)).
Proof.
  intros Hloaded. unfold CheckCertChain. rewrite Hloaded. simpl.
  destruct (HasCriticalExtension (LeafCert chain) NID_ctPoison);
    repeat split; try discriminate; try reflexivity; try congruence.
  intros _. destruct (CheckIssuerChain trusted_ chain). reflexivity.
Qed.

Lemma CheckCertChain_poison_extension_witness :
  CheckCertChain (CL := Sample.lib) Sample.one_root
    (Some (Sample.valid_chain [Sample.precert; Sample.ca] Cert.FALSE))
  = (util.mkStatus util.error.INVALID_ARGUMENT
       "precert extension in certificate chain",
     Some (Sample.valid_chain [Sample.precert; Sample.ca] Cert.FALSE))
  /\ CheckCertChain (CL := Sample.lib) Sample.one_root
       (Some (Sample.valid_chain [Sample.leaf; Sample.ca] Cert.FALSE))
     = (util.Status_OK,
        Some (Sample.valid_chain [Sample.leaf; Sample.ca; Sample.root] Cert.FALSE))
  /\ CheckCertChain (CL := Sample.lib) Sample.one_root
       (Some (Sample.valid_chain [Sample.undetermined; Sample.ca] Cert.FALSE))
     = (util.mkStatus util.error.INTERNAL "internal error",
        Some (Sample.valid_chain [Sample.undetermined; Sample.ca] Cert.FALSE)).
Proof.
  split; [|split].
  - apply (CheckCertChain_poison_extension (CL := Sample.lib));
      reflexivity.
  - destruct (CheckCertChain_poison_extension (CL := Sample.lib)
                Sample.one_root
                (Sample.valid_chain [Sample.leaf; Sample.ca] Cert.FALSE)
                eq_refl) as (_ & H & _).
    exact (H eq_refl).
  - destruct (CheckCertChain_poison_extension (CL := Sample.lib)
                Sample.one_root
                (Sample.valid_chain [Sample.undetermined; Sample.ca] Cert.FALSE)
                eq_refl) as (_ & _ & H).
    apply H; discriminate.
Defined.

(** ** [CheckPreCertChain] *)

Section PreCertFacts.
Context {CL : CertLib}.

(** [CheckPreCertChain] once the chain has passed the well-formedness and
    issuer-chain checks, when it uses a Precertificate Signing
    Certificate. *)
Lemma CheckPreCertChain_with_signing_cert (trusted_ : TrustStore)
    (chain checked : CertChain) (status : util.Status) (h0 t0 : string) :
  Chain_IsLoaded chain = true ->
  IsWellFormed chain = Cert.TRUE ->
  CheckIssuerChain trusted_ chain = (status, checked) ->
  util.ok status = true ->
  UsesPrecertSigningCertificate checked = Cert.TRUE ->
  CheckPreCertChain trusted_ (Some chain) h0 t0 =
  if (Length checked <? 3)%N then (internal_error, Some checked, h0, t0)
  else
    match SPKISha256Digest (CertAt checked 2) with
    | (Cert.TRUE, key_hash) =>
        if negb (Tbs_IsLoaded (TbsCertificate_of (PreCert checked)))
        then (internal_error, Some checked, h0, t0)
        else
          match DeleteExtension (TbsCertificate_of (PreCert checked))
                  NID_ctPoison with
          | (Cert.TRUE, deleted) =>
              match CopyIssuerFrom deleted (PrecertIssuingCert checked) with
              | (Cert.TRUE, rewritten) =>
                  match DerEncoding rewritten with
                  | (Cert.TRUE, der_tbs) =>
                      (util.Status_OK, Some checked, key_hash, der_tbs)
                  | _ =>
                      (util.mkStatus util.error.INTERNAL
                         "could not DER-encode tbs certificate",
                       Some checked, h0, t0)
                  end
              | _ => (internal_error, Some checked, h0, t0)
              end
          | _ => (internal_error, Some checked, h0, t0)
          end
    | _ => (internal_error, Some checked, h0, t0)
    end.
Proof.
  intros Hloaded Hwf Hcheck Hok Huses.
  unfold CheckPreCertChain.
  rewrite Hloaded, Hwf, Hcheck. simpl. rewrite Hok, Huses. simpl.
  repeat (split_match; try reflexivity; try congruence).
Qed.

(** The same when the pre-certificate is issued directly. *)
Lemma CheckPreCertChain_without_signing_cert (trusted_ : TrustStore)
    (chain checked : CertChain) (status : util.Status) (h0 t0 : string) :
  Chain_IsLoaded chain = true ->
  IsWellFormed chain = Cert.TRUE ->
  CheckIssuerChain trusted_ chain = (status, checked) ->
  util.ok status = true ->
  UsesPrecertSigningCertificate checked = Cert.FALSE ->
  CheckPreCertChain trusted_ (Some chain) h0 t0 =
  if (Length checked <? 2)%N then (internal_error, Some checked, h0, t0)
  else
    match SPKISha256Digest (CertAt checked 1) with
    | (Cert.TRUE, key_hash) =>
        if negb (Tbs_IsLoaded (TbsCertificate_of (PreCert checked)))
        then (internal_error, Some checked, h0, t0)
        else
          match DeleteExtension (TbsCertificate_of (PreCert checked))
                  NID_ctPoison with
          | (Cert.TRUE, deleted) =>
              match DerEncoding deleted with
              | (Cert.TRUE, der_tbs) =>
                  (util.Status_OK, Some checked, key_hash, der_tbs)
              | _ =>
                  (util.mkStatus util.error.INTERNAL
                     "could not DER-encode tbs certificate",
                   Some checked, h0, t0)
              end
          | _ => (internal_error, Some checked, h0, t0)
          end
    | _ => (internal_error, Some checked, h0, t0)
    end.
Proof.
  intros Hloaded Hwf Hcheck Hok Huses.
  unfold CheckPreCertChain.
  rewrite Hloaded, Hwf, Hcheck. simpl. rewrite Hok, Huses. simpl.
  repeat (split_match; try reflexivity; try congruence).
Qed.

End PreCertFacts.

(** [CheckPreCertChain] once the chain has passed the well-formedness and
    issuer-chain checks, when [UsesPrecertSigningCertificate] answers neither
    TRUE nor FALSE. *)
Lemma CheckPreCertChain_undetermined_signing_cert {CL : CertLib}
    (trusted_ : TrustStore) (chain checked : CertChain) (status : util.Status)
    (h0 t0 : string) :
  Chain_IsLoaded chain = true ->
  IsWellFormed chain = Cert.TRUE ->
  CheckIssuerChain trusted_ chain = (status, checked) ->
  util.ok status = true ->
  UsesPrecertSigningCertificate checked <> Cert.TRUE ->
  UsesPrecertSigningCertificate checked <> Cert.FALSE ->
  CheckPreCertChain trusted_ (Some chain) h0 t0 =
  (internal_error, Some checked, h0, t0).
Proof.
  intros Hloaded Hwf Hcheck Hok Hnt Hnf. unfold CheckPreCertChain.
  rewrite Hloaded, Hwf, Hcheck. simpl. rewrite Hok. simpl.
  destruct (UsesPrecertSigningCertificate checked);
    try reflexivity; contradiction.
Qed.

(** C3, as the code has it.  For a pre-certificate chain that has passed the
    well-formedness and issuer-chain checks, let [position] be 2 if
    [UsesPrecertSigningCertificate] answers TRUE and 1 if it answers FALSE.
    - If the chain is not longer than [position], or the SPKI digest of the
      certificate at [position] is not available, [CheckPreCertChain] returns
      INTERNAL, "internal error", and leaves the outputs alone.
    - If the chain is longer than [position], that digest is available and
      the construction of the TBS succeeds, the call returns [Status::OK] and
      the [issuer_key_hash] it emits is that digest.
    - Whenever the call accepts, the [issuer_key_hash] it emits is the digest
      of the certificate at [position], and with that digest available the
      call either accepts with it or fails with an INTERNAL status.
    If [UsesPrecertSigningCertificate] answers neither TRUE nor FALSE, the
    call returns INTERNAL, "internal error", whatever the length of the chain,
    and emits no hash. *)
Theorem CheckPreCertChain_issuer_key_hash {CL : CertLib}
    (trusted_ : TrustStore) (chain checked : CertChain) (status : util.Status)
    (h0 t0 : string) :
  Chain_IsLoaded chain = true ->
  IsWellFormed chain = Cert.TRUE ->
  CheckIssuerChain trusted_ chain = (status, checked) ->
  util.ok status = true ->
  (forall position,
      (UsesPrecertSigningCertificate checked = Cert.TRUE /\ position = 2%N) \/
      (UsesPrecertSigningCertificate checked = Cert.FALSE /\ position = 1%N) ->
      ((Length checked < position + 1)%N ->
       CheckPreCertChain trusted_ (Some chain) h0 t0 =
       (util.mkStatus util.error.INTERNAL "internal error",
        Some checked, h0, t0))
      /\ (fst (SPKISha256Digest (CertAt checked position)) <> Cert.TRUE ->
          CheckPreCertChain trusted_ (Some chain) h0 t0 =
          (util.mkStatus util.error.INTERNAL "internal error",
           Some checked, h0, t0))
      /\ (forall key_hash deleted final der,
            (position < Length checked)%N ->
            SPKISha256Digest (CertAt checked position) = (Cert.TRUE, key_hash) ->
            Tbs_IsLoaded (TbsCertificate_of (PreCert checked)) = true ->
            DeleteExtension (TbsCertificate_of (PreCert checked)) NID_ctPoison
            = (Cert.TRUE, deleted) ->
            (UsesPrecertSigningCertificate checked = Cert.TRUE ->
             CopyIssuerFrom deleted (PrecertIssuingCert checked)
             = (Cert.TRUE, final)) ->
            (UsesPrecertSigningCertificate checked = Cert.FALSE ->
             final = deleted) ->
            DerEncoding final = (Cert.TRUE, der) ->
            CheckPreCertChain trusted_ (Some chain) h0 t0 =
            (util.Status_OK, Some checked, key_hash, der))
      /\ (forall s accepted key_hash der,
            CheckPreCertChain trusted_ (Some chain) h0 t0 =
            (s, accepted, key_hash, der) ->
            util.ok s = true ->
            (position < Length checked)%N /\
            SPKISha256Digest (CertAt checked position) = (Cert.TRUE, key_hash))
      /\ (forall key_hash,
            (position < Length checked)%N ->
            SPKISha256Digest (CertAt checked position) = (Cert.TRUE, key_hash) ->
            (exists der,
                CheckPreCertChain trusted_ (Some chain) h0 t0 =
                (util.Status_OK, Some checked, key_hash, der))
            \/ (exists message,
                   CheckPreCertChain trusted_ (Some chain) h0 t0 =
                   (util.mkStatus util.error.INTERNAL message,
                    Some checked, h0, t0))))
  /\ (UsesPrecertSigningCertificate checked <> Cert.TRUE ->
      UsesPrecertSigningCertificate checked <> Cert.FALSE ->
      CheckPreCertChain trusted_ (Some chain) h0 t0 =
      (util.mkStatus util.error.INTERNAL "internal error",
       Some checked, h0, t0)).
Proof.
  intros Hloaded Hwf Hcheck Hok.
  split;
    [|apply (CheckPreCertChain_undetermined_signing_cert _ _ _ _ h0 t0
               Hloaded Hwf Hcheck Hok)].
  intros position [[Huses ->]|[Huses ->]].
  - rewrite (CheckPreCertChain_with_signing_cert _ _ _ _ h0 t0
               Hloaded Hwf Hcheck Hok Huses).
    split; [|split; [|split; [|split]]].
    + intros Hshort. apply N.ltb_lt in Hshort. simpl in Hshort.
      rewrite Hshort. reflexivity.
    + intros Hdigest.
      destruct (Length checked <? 3)%N; [reflexivity|].
      destruct (SPKISha256Digest (CertAt checked 2)) as [[] key_hash];
        try reflexivity.
      simpl in Hdigest. contradiction.
    + intros key_hash deleted final der Hlen Hspki Htbs Hdel Hcopy _ Hder.
      assert ((Length checked <? 3)%N = false) as -> by (apply N.ltb_ge; lia).
      rewrite Hspki, Htbs, Hdel, (Hcopy Huses), Hder. reflexivity.
    + intros s accepted key_hash der.
      destruct (Length checked <? 3)%N eqn:Hlen.
      { intros H Hs. inversion H; subst. discriminate. }
      apply N.ltb_ge in Hlen.
      repeat (split_match; try (intros H Hs; inversion H; subst; discriminate)).
      intros H _. inversion H; subst. split; [lia | reflexivity].
    + intros key_hash Hlen Hspki.
      assert ((Length checked <? 3)%N = false) as -> by (apply N.ltb_ge; lia).
      rewrite Hspki.
      repeat (split_match; try (right; eexists; reflexivity)).
      left. eexists. reflexivity.
  - rewrite (CheckPreCertChain_without_signing_cert _ _ _ _ h0 t0
               Hloaded Hwf Hcheck Hok Huses).
    split; [|split; [|split; [|split]]].
    + intros Hshort. apply N.ltb_lt in Hshort. simpl in Hshort.
      rewrite Hshort. reflexivity.
    + intros Hdigest.
      destruct (Length checked <? 2)%N; [reflexivity|].
      destruct (SPKISha256Digest (CertAt checked 1)) as [[] key_hash];
        try reflexivity.
      simpl in Hdigest. contradiction.
    + intros key_hash deleted final der Hlen Hspki Htbs Hdel _ Hsame Hder.
      assert ((Length checked <? 2)%N = false) as -> by (apply N.ltb_ge; lia).
      rewrite (Hsame Huses) in Hder.
      rewrite Hspki, Htbs, Hdel, Hder. reflexivity.
    + intros s accepted key_hash der.
      destruct (Length checked <? 2)%N eqn:Hlen.
      { intros H Hs. inversion H; subst. discriminate. }
      apply N.ltb_ge in Hlen.
      repeat (split_match; try (intros H Hs; inversion H; subst; discriminate)).
      intros H _. inversion H; subst. split; [lia | reflexivity].
    + intros key_hash Hlen Hspki.
      assert ((Length checked <? 2)%N = false) as -> by (apply N.ltb_ge; lia).
      rewrite Hspki.
      repeat (split_match; try (right; eexists; reflexivity)).
      left. eexists. reflexivity.
Qed.

(** [short_prechain] ends two certificates long and is refused with an
    internal error; [signed_prechain] is accepted and emits "spki-ca", the
    digest of the certificate two above the leaf; [direct_prechain] is
    accepted and emits the digest of the certificate one above;
    [undetermined_prechain] is refused with an internal error. *)
Lemma CheckPreCertChain_issuer_key_hash_witness :
  CheckPreCertChain (CL := Sample.lib) Sample.one_root
    (Some Sample.short_prechain) "" ""
  = (util.mkStatus util.error.INTERNAL "internal error",
     Some Sample.short_prechain, "", "")
  /\ (SPKISha256Digest (CertLib := Sample.lib)
        (CertAt (CertLib := Sample.lib)
           (Sample.valid_chain
              [Sample.precert_by_signing_cert; Sample.signing_cert; Sample.ca;
               Sample.root] Cert.TRUE) 2)
      = (Cert.TRUE, "spki-ca")
      /\ CheckPreCertChain (CL := Sample.lib) Sample.one_root
           (Some Sample.signed_prechain) "" ""
         = (util.Status_OK,
            Some (Sample.valid_chain
                    [Sample.precert_by_signing_cert; Sample.signing_cert;
                     Sample.ca; Sample.root] Cert.TRUE),
            "spki-ca", "tbs:der-pre2:issuer=CN=CA"))
  /\ (SPKISha256Digest (CertLib := Sample.lib)
        (CertAt (CertLib := Sample.lib)
           (Sample.valid_chain [Sample.precert; Sample.ca; Sample.root]
              Cert.FALSE) 1)
      = (Cert.TRUE, "spki-ca")
      /\ CheckPreCertChain (CL := Sample.lib) Sample.one_root
           (Some Sample.direct_prechain) "" ""
         = (util.Status_OK,
            Some (Sample.valid_chain [Sample.precert; Sample.ca; Sample.root]
                    Cert.FALSE),
            "spki-ca", "tbs:der-pre:issuer=CN=CA"))
  /\ CheckPreCertChain (CL := Sample.lib) Sample.one_root
       (Some Sample.undetermined_prechain) "" ""
     = (util.mkStatus util.error.INTERNAL "internal error",
        Some (Sample.valid_chain [Sample.precert; Sample.ca; Sample.root]
                Cert.ERROR), "", "").
Proof.
  split; [|split; [|split]].
  - destruct (CheckPreCertChain_issuer_key_hash (CL := Sample.lib)
                Sample.one_root Sample.short_prechain Sample.short_prechain
                util.Status_OK "" "" eq_refl eq_refl eq_refl eq_refl)
      as [Hdetermined _].
    destruct (Hdetermined 2%N (or_introl (conj eq_refl eq_refl)))
      as (Hshort & _).
    apply Hshort. reflexivity.
  - split; [reflexivity|].
    destruct (CheckPreCertChain_issuer_key_hash (CL := Sample.lib)
                Sample.one_root Sample.signed_prechain
                (Sample.valid_chain
                   [Sample.precert_by_signing_cert; Sample.signing_cert;
                    Sample.ca; Sample.root] Cert.TRUE)
                util.Status_OK "" "" eq_refl eq_refl eq_refl eq_refl)
      as [Hdetermined _].
    destruct (Hdetermined 2%N (or_introl (conj eq_refl eq_refl)))
      as (_ & _ & Hemitted & _).
    apply (Hemitted "spki-ca"
             (Sample.mk_tbs true "der-pre2" "CN=PSC" false)
             (Sample.mk_tbs true "der-pre2" "CN=CA" false)
             "tbs:der-pre2:issuer=CN=CA"); try reflexivity.
    discriminate.
  - split; [reflexivity|].
    destruct (CheckPreCertChain_issuer_key_hash (CL := Sample.lib)
                Sample.one_root Sample.direct_prechain
                (Sample.valid_chain [Sample.precert; Sample.ca; Sample.root]
                   Cert.FALSE)
                util.Status_OK "" "" eq_refl eq_refl eq_refl eq_refl)
      as [Hdetermined _].
    destruct (Hdetermined 1%N (or_intror (conj eq_refl eq_refl)))
      as (_ & _ & Hemitted & _).
    apply (Hemitted "spki-ca"
             (Sample.mk_tbs true "der-pre" "CN=CA" false)
             (Sample.mk_tbs true "der-pre" "CN=CA" false)
             "tbs:der-pre:issuer=CN=CA"); try reflexivity.
    discriminate.
  - destruct (CheckPreCertChain_issuer_key_hash (CL := Sample.lib)
                Sample.one_root Sample.undetermined_prechain
                (Sample.valid_chain [Sample.precert; Sample.ca; Sample.root]
                   Cert.ERROR)
                util.Status_OK "" "" eq_refl eq_refl eq_refl eq_refl)
      as [_ Hundetermined].
    apply Hundetermined; discriminate.
Defined.

(** C3 fails as stated: [undetermined_prechain] passes the well-formedness
    and issuer-chain checks, is not found to use a Precertificate Signing
    Certificate, is three certificates long after the checks and the digest
    of the certificate at position 1 is available, "spki-ca"; yet the call
    returns the internal-error status and emits no hash, because the answer
    of [UsesPrecertSigningCertificate] is neither TRUE nor FALSE. *)
Lemma CheckPreCertChain_issuer_key_hash_counterexample :
  Chain_IsLoaded (CertLib := Sample.lib) Sample.undetermined_prechain = true
  /\ IsWellFormed (CertLib := Sample.lib) Sample.undetermined_prechain
     = Cert.TRUE
  /\ CheckIssuerChain (CL := Sample.lib) Sample.one_root
       Sample.undetermined_prechain
     = (util.Status_OK,
        Sample.valid_chain [Sample.precert; Sample.ca; Sample.root] Cert.ERROR)
  /\ UsesPrecertSigningCertificate (CertLib := Sample.lib)
       (Sample.valid_chain [Sample.precert; Sample.ca; Sample.root] Cert.ERROR)
     <> Cert.TRUE
  /\ Length (CertLib := Sample.lib)
       (Sample.valid_chain [Sample.precert; Sample.ca; Sample.root] Cert.ERROR)
     = 3%N
  /\ SPKISha256Digest (CertLib := Sample.lib)
       (CertAt (CertLib := Sample.lib)
          (Sample.valid_chain [Sample.precert; Sample.ca; Sample.root]
             Cert.ERROR) 1)
     = (Cert.TRUE, "spki-ca")
  /\ CheckPreCertChain (CL := Sample.lib) Sample.one_root
       (Some Sample.undetermined_prechain) "" ""
     = (util.mkStatus util.error.INTERNAL "internal error",
        Some (Sample.valid_chain [Sample.precert; Sample.ca; Sample.root]
                Cert.ERROR), "", "")
  /\ snd (fst (CheckPreCertChain (CL := Sample.lib) Sample.one_root
                 (Some Sample.undetermined_prechain) "" ""))
     <> "spki-ca".
Proof.
  repeat split; try reflexivity; discriminate.
Qed.

(** C4. For a pre-certificate chain that has passed the well-formedness and
    issuer-chain checks and whose use of a Precertificate Signing Certificate
    is determined:
    - when [CheckPreCertChain] accepts, the [tbs_certificate] it emits is the
      DER encoding of the TBS of the pre-certificate after the poison
      extension was deleted and, exactly when a signing certificate is used,
      after the issuer was copied from [PrecertIssuingCert];
    - a failure of the deletion, of the copy or of the encoding gives a status
      with code INTERNAL;
    - when the key hash and every TBS step succeed, the chain is accepted. *)
Theorem CheckPreCertChain_tbs_certificate {CL : CertLib}
    (trusted_ : TrustStore) (chain checked : CertChain) (status : util.Status)
    (h0 t0 : string) (position : N) :
  Chain_IsLoaded chain = true ->
  IsWellFormed chain = Cert.TRUE ->
  CheckIssuerChain trusted_ chain = (status, checked) ->
  util.ok status = true ->
  (UsesPrecertSigningCertificate checked = Cert.TRUE /\ position = 2%N) \/
  (UsesPrecertSigningCertificate checked = Cert.FALSE /\ position = 1%N) ->
  let tbs := TbsCertificate_of (PreCert checked) in
  let rewrite_issuer deleted final :=
    (UsesPrecertSigningCertificate checked = Cert.TRUE ->
     CopyIssuerFrom deleted (PrecertIssuingCert checked) = (Cert.TRUE, final))
    /\ (UsesPrecertSigningCertificate checked = Cert.FALSE -> final = deleted) in
  let result := CheckPreCertChain trusted_ (Some chain) h0 t0 in
  (util.ok (fst (fst (fst result))) = true ->
   exists deleted final,
     DeleteExtension tbs NID_ctPoison = (Cert.TRUE, deleted)
     /\ rewrite_issuer deleted final
     /\ DerEncoding final = (Cert.TRUE, snd result))
  /\ (fst (DeleteExtension tbs NID_ctPoison) <> Cert.TRUE ->
      util.error_code (fst (fst (fst result))) = util.error.INTERNAL)
  /\ (forall deleted,
        DeleteExtension tbs NID_ctPoison = (Cert.TRUE, deleted) ->
        UsesPrecertSigningCertificate checked = Cert.TRUE ->
        fst (CopyIssuerFrom deleted (PrecertIssuingCert checked)) <> Cert.TRUE ->
        util.error_code (fst (fst (fst result))) = util.error.INTERNAL)
  /\ (forall deleted final,
        DeleteExtension tbs NID_ctPoison = (Cert.TRUE, deleted) ->
        rewrite_issuer deleted final ->
        fst (DerEncoding final) <> Cert.TRUE ->
        util.error_code (fst (fst (fst result))) = util.error.INTERNAL)
  /\ (forall key_hash deleted final der,
        (position < Length checked)%N ->
        SPKISha256Digest (CertAt checked position) = (Cert.TRUE, key_hash) ->
        Tbs_IsLoaded tbs = true ->
        DeleteExtension tbs NID_ctPoison = (Cert.TRUE, deleted) ->
        rewrite_issuer deleted final ->
        DerEncoding final = (Cert.TRUE, der) ->
        result = (util.Status_OK, Some checked, key_hash, der)).
Proof.
  intros Hloaded Hwf Hcheck Hok [[Huses ->]|[Huses ->]] tbs rewrite_issuer result;
    subst tbs rewrite_issuer result.
  - rewrite (CheckPreCertChain_with_signing_cert _ _ _ _ h0 t0
               Hloaded Hwf Hcheck Hok Huses).
    repeat split.
    + destruct (Length checked <? 3)%N; [discriminate|].
      destruct (SPKISha256Digest (CertAt checked 2)) as [[] key_hash];
        try discriminate.
      destruct (negb (Tbs_IsLoaded _)); [discriminate|].
      destruct (DeleteExtension _ NID_ctPoison) as [[] deleted];
        try discriminate.
      destruct (CopyIssuerFrom deleted _) as [[] final] eqn:Hcopy;
        try discriminate.
      destruct (DerEncoding final) as [[] der] eqn:Hder; try discriminate.
      intros _. exists deleted, final. repeat split; auto. congruence.
    + repeat (split_match; try reflexivity). simpl. congruence.
    + intros deleted Hdel _ Hcopy. rewrite Hdel.
      repeat (split_match; try reflexivity). simpl in Hcopy. congruence.
    + intros deleted final Hdel [Hcopy _] Hder. rewrite Hdel, (Hcopy Huses).
      repeat (split_match; try reflexivity). simpl in Hder. congruence.
    + intros key_hash deleted final der Hlen Hspki Htbs Hdel [Hcopy _] Hder.
      assert ((Length checked <? 3)%N = false) as -> by (apply N.ltb_ge; lia).
      rewrite Hspki, Htbs, Hdel, (Hcopy Huses), Hder. reflexivity.
  - rewrite (CheckPreCertChain_without_signing_cert _ _ _ _ h0 t0
               Hloaded Hwf Hcheck Hok Huses).
    repeat split.
    + destruct (Length checked <? 2)%N; [discriminate|].
      destruct (SPKISha256Digest (CertAt checked 1)) as [[] key_hash];
        try discriminate.
      destruct (negb (Tbs_IsLoaded _)); [discriminate|].
      destruct (DeleteExtension _ NID_ctPoison) as [[] deleted];
        try discriminate.
      destruct (DerEncoding deleted) as [[] der] eqn:Hder; try discriminate.
      intros _. exists deleted, deleted. repeat split; auto. congruence.
    + repeat (split_match; try reflexivity). simpl. congruence.
    + intros deleted Hdel Huses'. congruence.
    + intros deleted final Hdel [_ Hsame] Hder. rewrite Hdel.
      rewrite (Hsame Huses) in Hder.
      repeat (split_match; try reflexivity). simpl in Hder. congruence.
    + intros key_hash deleted final der Hlen Hspki Htbs Hdel [_ Hsame] Hder.
      assert ((Length checked <? 2)%N = false) as -> by (apply N.ltb_ge; lia).
      rewrite (Hsame Huses) in Hder.
      rewrite Hspki, Htbs, Hdel, Hder. reflexivity.
Qed.

(** [signed_prechain] is accepted with the issuer of the TBS taken from the
    signing certificate ("CN=CA" instead of "CN=PSC") and the poison
    extension gone; [direct_prechain] keeps its issuer; a chain whose leaf
    has no poison extension to delete fails with an INTERNAL status. *)
Lemma CheckPreCertChain_tbs_certificate_witness :
  CheckPreCertChain (CL := Sample.lib) Sample.one_root
    (Some Sample.signed_prechain) "" ""
  = (util.Status_OK,
     Some (Sample.valid_chain
             [Sample.precert_by_signing_cert; Sample.signing_cert; Sample.ca;
              Sample.root] Cert.TRUE),
     "spki-ca", "tbs:der-pre2:issuer=CN=CA")
  /\ CheckPreCertChain (CL := Sample.lib) Sample.one_root
       (Some Sample.direct_prechain) "" ""
     = (util.Status_OK,
        Some (Sample.valid_chain [Sample.precert; Sample.ca; Sample.root]
                Cert.FALSE),
        "spki-ca", "tbs:der-pre:issuer=CN=CA")
  /\ util.error_code
       (fst (fst (fst (CheckPreCertChain (CL := Sample.lib) Sample.one_root
                         (Some (Sample.valid_chain [Sample.leaf; Sample.ca]
                                  Cert.FALSE)) "" ""))))
     = util.error.INTERNAL.
Proof.
  split; [|split].
  - pose proof (CheckPreCertChain_tbs_certificate (CL := Sample.lib)
                  Sample.one_root Sample.signed_prechain
                  (Sample.valid_chain
                     [Sample.precert_by_signing_cert; Sample.signing_cert;
                      Sample.ca; Sample.root] Cert.TRUE)
                  util.Status_OK "" "" 2%N eq_refl eq_refl eq_refl eq_refl
                  (or_introl (conj eq_refl eq_refl))) as H.
    cbv zeta in H. destruct H as (_ & _ & _ & _ & Hproduced).
    apply (Hproduced "spki-ca"
             (Sample.mk_tbs true "der-pre2" "CN=PSC" false)
             (Sample.mk_tbs true "der-pre2" "CN=CA" false)
             "tbs:der-pre2:issuer=CN=CA"); try reflexivity.
    split; [reflexivity | discriminate].
  - pose proof (CheckPreCertChain_tbs_certificate (CL := Sample.lib)
                  Sample.one_root Sample.direct_prechain
                  (Sample.valid_chain [Sample.precert; Sample.ca; Sample.root]
                     Cert.FALSE)
                  util.Status_OK "" "" 1%N eq_refl eq_refl eq_refl eq_refl
                  (or_intror (conj eq_refl eq_refl))) as H.
    cbv zeta in H. destruct H as (_ & _ & _ & _ & Hproduced).
    apply (Hproduced "spki-ca"
             (Sample.mk_tbs true "der-pre" "CN=CA" false)
             (Sample.mk_tbs true "der-pre" "CN=CA" false)
             "tbs:der-pre:issuer=CN=CA"); try reflexivity.
    split; [discriminate | reflexivity].
  - pose proof (CheckPreCertChain_tbs_certificate (CL := Sample.lib)
                  Sample.one_root
                  (Sample.valid_chain [Sample.leaf; Sample.ca] Cert.FALSE)
                  (Sample.valid_chain [Sample.leaf; Sample.ca; Sample.root]
                     Cert.FALSE)
                  util.Status_OK "" "" 1%N eq_refl eq_refl eq_refl eq_refl
                  (or_intror (conj eq_refl eq_refl))) as H.
    cbv zeta in H. destruct H as (_ & Hdelete & _).
    apply Hdelete. discriminate.
Defined.

(** ** [LoadTrustedCertificatesFromBIO] *)

Section LoadFacts.
Context {CL : CertLib}.

Lemma insert_from_back_app (trusted_ : TrustStore)
    (certs_to_add : list (string * Cert)) :
  insert_from_back trusted_ certs_to_add = trusted_ ++ rev certs_to_add.
Proof.
  unfold insert_from_back. generalize (rev certs_to_add) as l.
  intros l. revert trusted_.
  induction l as [|e l IH]; intros trusted_; simpl.
  - symmetry. apply app_nil_r.
  - rewrite IH. unfold insert. rewrite <- app_assoc. reflexivity.
Qed.

(** A read that fails, or a certificate that cannot be classified, sets
    [error], wherever it stands in the source. *)
Lemma read_certs_error (trusted_ : TrustStore) (bio_in : BIO) :
  In PEM_bad_encoding bio_in \/
  (exists cert, In (PEM_x509 cert) bio_in /\
                fst (IsTrusted trusted_ cert "") <> OK /\
                fst (IsTrusted trusted_ cert "") <> ROOT_NOT_IN_LOCAL_STORE) ->
  forall certs_to_add cert_count,
    fst (fst (read_certs trusted_ bio_in certs_to_add cert_count)) = true.
Proof.
  induction bio_in as [|read rest IH]; intros Hbad certs_to_add cert_count.
  - destruct Hbad as [[]|[cert [[] _]]].
  - simpl. destruct read as [cert|]; [|reflexivity].
    destruct (IsTrusted trusted_ cert "") as [is_trusted subject_name] eqn:E.
    assert (In PEM_bad_encoding rest \/
            (exists cert', In (PEM_x509 cert') rest /\
               fst (IsTrusted trusted_ cert' "") <> OK /\
               fst (IsTrusted trusted_ cert' "") <> ROOT_NOT_IN_LOCAL_STORE) \/
            (is_trusted <> OK /\ is_trusted <> ROOT_NOT_IN_LOCAL_STORE))
      as Hcases.
    { destruct Hbad as [[Heq|Hin]|[cert' [[Heq|Hin] Hclass]]].
      - discriminate.
      - left. exact Hin.
      - inversion Heq; subst cert'. rewrite E in Hclass. right. right.
        exact Hclass.
      - right. left. exists cert'. split; assumption. }
    destruct is_trusted; try reflexivity;
      (destruct Hcases as [H|[H|[H1 H2]]];
       [apply IH; left; exact H | apply IH; right; exact H | congruence]).
Qed.

(** When the loop ends without [error], every read gave a certificate that
    was classified, the staged certificates are those not yet trusted, and
    every read was counted. *)
Lemma read_certs_clean (trusted_ : TrustStore) (bio_in : BIO) :
  forall certs_to_add cert_count,
    fst (fst (read_certs trusted_ bio_in certs_to_add cert_count)) = false ->
    (forall read, In read bio_in ->
       exists cert, read = PEM_x509 cert /\
         (fst (IsTrusted trusted_ cert "") = OK \/
          fst (IsTrusted trusted_ cert "") = ROOT_NOT_IN_LOCAL_STORE))
    /\ snd (fst (read_certs trusted_ bio_in certs_to_add cert_count)) =
       certs_to_add ++ not_yet_trusted trusted_ bio_in
    /\ ((cert_count < size_t_modulus)%N ->
        snd (read_certs trusted_ bio_in certs_to_add cert_count) =
        ((cert_count + N.of_nat (List.length bio_in)) mod size_t_modulus)%N).
Proof.
  assert (0 < size_t_modulus)%N as Hpos by reflexivity.
  induction bio_in as [|read rest IH]; intros certs_to_add cert_count.
  - simpl. intros _. split; [intros ? []|]. split.
    + symmetry. apply app_nil_r.
    + intros Hlt. rewrite N.add_0_r, N.mod_small by exact Hlt. reflexivity.
  - simpl. destruct read as [cert|]; [|discriminate].
    destruct (IsTrusted trusted_ cert "") as [is_trusted subject_name] eqn:E.
    destruct is_trusted; try discriminate; intros Herr;
      destruct (IH _ _ Herr) as (Hall & Hstaged & Hcount);
      (split; [|split]).
    + intros read [<-|Hin]; [|exact (Hall _ Hin)].
      exists cert. rewrite E. auto.
    + rewrite Hstaged. reflexivity.
    + intros Hlt. rewrite Hcount by (apply N.mod_lt; lia).
      rewrite N.Div0.add_mod_idemp_l. f_equal. lia.
    + intros read [<-|Hin]; [|exact (Hall _ Hin)].
      exists cert. rewrite E. auto.
    + rewrite Hstaged, <- app_assoc. reflexivity.
    + intros Hlt. rewrite Hcount by (apply N.mod_lt; lia).
      rewrite N.Div0.add_mod_idemp_l. f_equal. lia.
Qed.

(** When every read gives a certificate that is already trusted, the loop
    ends without [error] and stages nothing. *)
Lemma read_certs_all_trusted (trusted_ : TrustStore) (bio_in : BIO) :
  (forall read, In read bio_in ->
     exists cert, read = PEM_x509 cert /\ fst (IsTrusted trusted_ cert "") = OK) ->
  forall certs_to_add cert_count,
    fst (read_certs trusted_ bio_in certs_to_add cert_count) =
    (false, certs_to_add).
Proof.
  induction bio_in as [|read rest IH]; intros Hall certs_to_add cert_count.
  - reflexivity.
  - simpl. destruct (Hall read (or_introl eq_refl)) as [cert [-> Hok]].
    destruct (IsTrusted trusted_ cert "") as [is_trusted subject_name].
    simpl in Hok. subst is_trusted.
    apply IH. intros read Hin. apply Hall. right. exact Hin.
Qed.

Lemma In_not_yet_trusted (trusted_ : TrustStore) (bio_in : BIO)
    (cert : Cert) (subject_name : string) :
  In (PEM_x509 cert) bio_in ->
  IsTrusted trusted_ cert "" = (ROOT_NOT_IN_LOCAL_STORE, subject_name) ->
  In (subject_name, cert) (not_yet_trusted trusted_ bio_in).
Proof.
  intros Hin Hclass. unfold not_yet_trusted. apply in_flat_map.
  exists (PEM_x509 cert). split; [exact Hin|]. rewrite Hclass. left. reflexivity.
Qed.

(** What a call that reports success has done. *)
Lemma Load_success (trusted_ trusted' : TrustStore) (bio_in : BIO) :
  LoadTrustedCertificatesFromBIO trusted_ bio_in = (true, trusted') ->
  trusted' = trusted_ ++ rev (not_yet_trusted trusted_ bio_in)
  /\ (forall read, In read bio_in ->
        exists cert, read = PEM_x509 cert /\
          (fst (IsTrusted trusted_ cert "") = OK \/
           fst (IsTrusted trusted_ cert "") = ROOT_NOT_IN_LOCAL_STORE))
  /\ (N.of_nat (List.length bio_in) mod size_t_modulus <> 0)%N.
Proof.
  unfold LoadTrustedCertificatesFromBIO.
  destruct (read_certs trusted_ bio_in [] 0%N)
    as [[error certs_to_add] cert_count] eqn:E.
  destruct error; [discriminate|]. simpl.
  destruct (cert_count =? 0)%N eqn:Hcount; [discriminate|].
  intros H. inversion H; subst trusted'. clear H.
  destruct (read_certs_clean trusted_ bio_in [] 0%N) as (Hall & Hstaged & Hn).
  { rewrite E. reflexivity. }
  rewrite E in Hstaged, Hn. simpl in Hstaged, Hn.
  split; [|split].
  - rewrite insert_from_back_app, Hstaged. reflexivity.
  - exact Hall.
  - rewrite <- Hn by reflexivity. apply N.eqb_neq. exact Hcount.
Qed.

End LoadFacts.

(** C2. Loading is all or nothing.  A source with a read that fails, with a
    certificate that [IsTrusted] classifies as neither OK nor
    ROOT_NOT_IN_LOCAL_STORE, or without any certificate, is rejected, and
    whenever the call returns false the trust store is what it was.  When the
    call returns true the store is the old one followed by the certificates
    that were not yet trusted, so each of them is in it.  If a certificate is
    identical to itself, loading the same source again returns true and
    leaves the store as the first load made it. *)
Theorem Load_all_or_nothing {CL : CertLib}
    (trusted_ : TrustStore) (bio_in : BIO) :
  (In PEM_bad_encoding bio_in \/
   (exists cert, In (PEM_x509 cert) bio_in /\
                 fst (IsTrusted trusted_ cert "") <> OK /\
                 fst (IsTrusted trusted_ cert "") <> ROOT_NOT_IN_LOCAL_STORE) \/
   (forall cert, ~ In (PEM_x509 cert) bio_in) ->
   LoadTrustedCertificatesFromBIO trusted_ bio_in = (false, trusted_))
  /\ (fst (LoadTrustedCertificatesFromBIO trusted_ bio_in) = false ->
      snd (LoadTrustedCertificatesFromBIO trusted_ bio_in) = trusted_)
  /\ (forall trusted',
        LoadTrustedCertificatesFromBIO trusted_ bio_in = (true, trusted') ->
        trusted' = trusted_ ++ rev (not_yet_trusted trusted_ bio_in)
        /\ (forall cert,
              In (PEM_x509 cert) bio_in ->
              fst (IsTrusted trusted_ cert "") <> OK ->
              In (snd (IsTrusted trusted_ cert ""), cert) trusted'))
  /\ ((forall cert, IsIdenticalTo cert cert = true) ->
      forall trusted',
        LoadTrustedCertificatesFromBIO trusted_ bio_in = (true, trusted') ->
        LoadTrustedCertificatesFromBIO trusted' bio_in = (true, trusted')).
Proof.
  split; [|split; [|split]].
  - intros Hrejected.
    assert (bio_in = [] \/
            In PEM_bad_encoding bio_in \/
            (exists cert, In (PEM_x509 cert) bio_in /\
               fst (IsTrusted trusted_ cert "") <> OK /\
               fst (IsTrusted trusted_ cert "") <> ROOT_NOT_IN_LOCAL_STORE))
      as [->|Herror].
    { destruct Hrejected as [H|[H|H]]; auto.
      destruct bio_in as [|[cert|] rest]; auto.
      - exfalso. apply (H cert). left. reflexivity.
      - right. left. left. reflexivity. }
    + reflexivity.
    + unfold LoadTrustedCertificatesFromBIO.
      pose proof (read_certs_error trusted_ bio_in Herror [] 0%N) as Herr.
      destruct (read_certs trusted_ bio_in [] 0%N) as [[error ?] ?].
      simpl in Herr. subst error. reflexivity.
  - unfold LoadTrustedCertificatesFromBIO.
    destruct (read_certs trusted_ bio_in [] 0%N) as [[error ?] cert_count].
    destruct (error || (cert_count =? 0)%N); [reflexivity | discriminate].
  - intros trusted' Hload.
    destruct (Load_success _ _ _ Hload) as (Hstore & Hall & _).
    split; [exact Hstore|].
    intros cert Hin Hnot. subst trusted'.
    apply in_or_app. right. apply in_rev. rewrite rev_involutive.
    destruct (Hall _ Hin) as [cert' [Heq [Hclass|Hclass]]];
      inversion Heq; subst cert'; [contradiction|].
    apply In_not_yet_trusted; [exact Hin|].
    destruct (IsTrusted trusted_ cert "") as [r name]. simpl in *.
    subst r. reflexivity.
  - intros Hrefl trusted' Hload.
    destruct (Load_success _ _ _ Hload) as (Hstore & Hall & Hcount).
    assert (forall read, In read bio_in ->
              exists cert, read = PEM_x509 cert /\
                           fst (IsTrusted trusted' cert "") = OK) as Hknown.
    { intros read Hin. destruct (Hall _ Hin) as [cert [-> Hclass]].
      exists cert. split; [reflexivity|].
      destruct (IsTrusted trusted_ cert "") as [r name] eqn:E. simpl in Hclass.
      pose proof (IsTrusted_classified _ _ _ _ _ E Hclass) as Hname.
      rewrite (IsTrusted_named trusted' _ _ "" Hname). simpl.
      rewrite (IsTrusted_named trusted_ _ _ "" Hname) in E.
      assert (identical_in cert (equal_range trusted' name) = true) as ->;
        [|reflexivity].
      subst trusted'. rewrite equal_range_app, identical_in_app.
      destruct (identical_in cert (equal_range trusted_ name)) eqn:Hid;
        [reflexivity|]. simpl.
      apply identical_in_true. exists (name, cert). split; [|apply Hrefl].
      apply In_equal_range. split; [|reflexivity].
      apply in_rev. rewrite rev_involutive.
      apply In_not_yet_trusted; [exact Hin|].
      rewrite (IsTrusted_named trusted_ _ _ "" Hname), Hid. reflexivity. }
    unfold LoadTrustedCertificatesFromBIO.
    pose proof (read_certs_all_trusted trusted' bio_in Hknown [] 0%N) as Hread.
    destruct (read_certs_clean trusted' bio_in [] 0%N) as (_ & _ & Hn).
    { rewrite Hread. reflexivity. }
    specialize (Hn eq_refl).
    destruct (read_certs trusted' bio_in [] 0%N)
      as [[error certs_to_add] cert_count].
    simpl in Hread, Hn. inversion Hread; subst error certs_to_add.
    rewrite <- Hn in Hcount.
    apply N.eqb_neq in Hcount. rewrite Hcount. reflexivity.
Qed.

(** A source with a failing read, a source with a certificate that cannot be
    classified and an empty source leave the store alone; a source with one
    trusted and one new certificate adds the new one; loading it again adds
    nothing and succeeds. *)
Lemma Load_all_or_nothing_witness :
  LoadTrustedCertificatesFromBIO (CL := Sample.lib) Sample.one_root
    [PEM_x509 Sample.ca; PEM_bad_encoding] = (false, Sample.one_root)
  /\ LoadTrustedCertificatesFromBIO (CL := Sample.lib) Sample.one_root
       [PEM_x509 Sample.ca; PEM_x509 Sample.unloaded] = (false, Sample.one_root)
  /\ LoadTrustedCertificatesFromBIO (CL := Sample.lib) Sample.one_root []
     = (false, Sample.one_root)
  /\ In ("CN=CA", Sample.ca)
       (snd (LoadTrustedCertificatesFromBIO (CL := Sample.lib) Sample.one_root
               [PEM_x509 Sample.root; PEM_x509 Sample.ca]))
  /\ LoadTrustedCertificatesFromBIO (CL := Sample.lib)
       [("CN=Root", Sample.root); ("CN=CA", Sample.ca)]
       [PEM_x509 Sample.root; PEM_x509 Sample.ca]
     = (true, [("CN=Root", Sample.root); ("CN=CA", Sample.ca)]).
Proof.
  split; [|split; [|split; [|split]]].
  - apply (Load_all_or_nothing (CL := Sample.lib)).
    left. right. left. reflexivity.
  - apply (Load_all_or_nothing (CL := Sample.lib)).
    right. left. exists Sample.unloaded.
    split; [right; left; reflexivity | split; discriminate].
  - apply (Load_all_or_nothing (CL := Sample.lib)).
    right. right. intros cert [].
  - destruct (Load_all_or_nothing (CL := Sample.lib) Sample.one_root
                [PEM_x509 Sample.root; PEM_x509 Sample.ca])
      as (_ & _ & Hsuccess & _).
    destruct (Hsuccess _ eq_refl) as [_ Hinserted].
    apply (Hinserted Sample.ca); [right; left; reflexivity | discriminate].
  - destruct (Load_all_or_nothing (CL := Sample.lib) Sample.one_root
                [PEM_x509 Sample.root; PEM_x509 Sample.ca])
      as (_ & _ & _ & Hagain).
    apply Hagain; [|reflexivity].
    intros cert. apply String.eqb_refl.
Defined.

(** C10. Within one call a certificate is only compared with the entries the
    trust store held before the call: the staged certificates are those not
    trusted by the old store.  So when a source holds a certificate that is
    not yet trusted at two places and the call succeeds, the store holds two
    new entries for it. *)
Theorem Load_duplicate_in_batch {CL : CertLib}
    (trusted_ trusted' : TrustStore) (bio_in : BIO) :
  LoadTrustedCertificatesFromBIO trusted_ bio_in = (true, trusted') ->
  trusted' = trusted_ ++ rev (not_yet_trusted trusted_ bio_in)
  /\ (forall cert subject_name before between after,
        bio_in = before ++ PEM_x509 cert :: between ++ PEM_x509 cert :: after ->
        IsTrusted trusted_ cert "" = (ROOT_NOT_IN_LOCAL_STORE, subject_name) ->
        exists s1 s2 s3,
          trusted' =
          trusted_ ++ s1 ++ (subject_name, cert) :: s2 ++
                      (subject_name, cert) :: s3).
Proof.
  intros Hload. destruct (Load_success _ _ _ Hload) as (Hstore & _ & _).
  split; [exact Hstore|].
  intros cert subject_name before between after Hbio Hclass.
  exists (rev (not_yet_trusted trusted_ after)),
         (rev (not_yet_trusted trusted_ between)),
         (rev (not_yet_trusted trusted_ before)).
  rewrite Hstore, Hbio. f_equal.
  unfold not_yet_trusted.
  rewrite flat_map_app. simpl. rewrite flat_map_app. simpl.
  rewrite Hclass. simpl.
  repeat (rewrite rev_app_distr; simpl).
  repeat (rewrite <- app_assoc; simpl). reflexivity.
Qed.

(** Loading the root twice in one source into an empty store gives a store
    with two entries for it. *)
Lemma Load_duplicate_in_batch_witness :
  LoadTrustedCertificatesFromBIO (CL := Sample.lib) []
    [PEM_x509 Sample.root; PEM_x509 Sample.root]
  = (true, [("CN=Root", Sample.root); ("CN=Root", Sample.root)])
  /\ exists s1 s2 s3,
       [("CN=Root", Sample.root); ("CN=Root", Sample.root)] =
       [] ++ s1 ++ ("CN=Root", Sample.root) :: s2 ++
                   ("CN=Root", Sample.root) :: s3.
Proof.
  split; [reflexivity|].
  destruct (Load_duplicate_in_batch (CL := Sample.lib) []
              [("CN=Root", Sample.root); ("CN=Root", Sample.root)]
              [PEM_x509 Sample.root; PEM_x509 Sample.root] eq_refl)
    as [_ Htwice].
  exact (Htwice Sample.root "CN=Root" [] [] [] eq_refl eq_refl).
Defined.

(** ** [Database::WriteTreeHead] *)

(** C9. [WriteTreeHead] answers MISSING_TREE_HEAD_TIMESTAMP for a tree head
    without timestamp and leaves the engine alone, whatever the engine is;
    with a timestamp it is the engine's [WriteTreeHead_], nothing else is
    checked.  On the engine of the contract, a tree head whose timestamp is
    stored already gets DUPLICATE_TREE_HEAD_TIMESTAMP, and one whose timestamp
    is new is stored with OK, also when its timestamp is older than those
    stored. *)
Theorem WriteTreeHead_timestamp
    (DB : Type) (E : Database.Engine DB) (db : DB)
    (store : list Database.SignedTreeHead) (sth : Database.SignedTreeHead) :
  (Database.has_timestamp sth = false ->
   Database.WriteTreeHead db sth = (Database.MISSING_TREE_HEAD_TIMESTAMP, db))
  /\ (Database.has_timestamp sth = true ->
      Database.WriteTreeHead db sth = Database.WriteTreeHead_ db sth)
  /\ (Database.has_timestamp sth = true ->
      (exists stored,
          In stored store /\
          Database.timestamp stored = Database.timestamp sth) ->
      Database.WriteTreeHead (E := Database.contract_engine) store sth =
      (Database.DUPLICATE_TREE_HEAD_TIMESTAMP, store))
  /\ (Database.has_timestamp sth = true ->
      (forall stored,
          In stored store ->
          Database.timestamp stored <> Database.timestamp sth) ->
      Database.WriteTreeHead (E := Database.contract_engine) store sth = (Database.OK, store ++ [sth])).
Proof.
  unfold Database.WriteTreeHead. repeat split.
  - intros ->. reflexivity.
  - intros ->. reflexivity.
  - intros Hts [stored [Hin Hsame]]. rewrite Hts. simpl.
    unfold Database.contract_WriteTreeHead_. rewrite Hts. simpl.
    assert (existsb (Database.same_timestamp sth) store = true) as ->;
      [|reflexivity].
    apply existsb_exists. exists stored. split; [exact Hin|].
    unfold Database.same_timestamp, Database.has_timestamp in *.
    rewrite Hsame. destruct (Database.timestamp sth); [|discriminate].
    apply N.eqb_refl.
  - intros Hts Hnew. rewrite Hts. simpl.
    unfold Database.contract_WriteTreeHead_. rewrite Hts. simpl.
    assert (existsb (Database.same_timestamp sth) store = false) as ->;
      [|reflexivity].
    apply not_true_is_false. intros Hex.
    apply existsb_exists in Hex. destruct Hex as [stored [Hin Hsame]].
    apply (Hnew _ Hin).
    unfold Database.same_timestamp in Hsame.
    destruct (Database.timestamp sth), (Database.timestamp stored);
      try discriminate.
    apply N.eqb_eq in Hsame. congruence.
Qed.

(** A tree head without timestamp does not reach an engine that counts its
    calls, one with a timestamp does; on the engine of the contract a second
    tree head with timestamp 10 is a duplicate whatever its size and root
    hash, and a tree head with the older timestamp 5 is stored. *)
Lemma WriteTreeHead_timestamp_witness :
  Database.WriteTreeHead (E := Database.counting_engine) 0
    (Database.mkSignedTreeHead None 1 "root-1" "sig-1")
  = (Database.MISSING_TREE_HEAD_TIMESTAMP, 0)
  /\ Database.WriteTreeHead (E := Database.counting_engine) 0
       (Database.mkSignedTreeHead (Some 10%N) 1 "root-1" "sig-1")
     = (Database.OK, 1)
  /\ Database.WriteTreeHead (E := Database.contract_engine)
       [Database.mkSignedTreeHead (Some 10%N) 1 "root-1" "sig-1"]
       (Database.mkSignedTreeHead (Some 10%N) 2 "root-2" "sig-2")
     = (Database.DUPLICATE_TREE_HEAD_TIMESTAMP,
        [Database.mkSignedTreeHead (Some 10%N) 1 "root-1" "sig-1"])
  /\ Database.WriteTreeHead (E := Database.contract_engine)
       [Database.mkSignedTreeHead (Some 10%N) 1 "root-1" "sig-1"]
       (Database.mkSignedTreeHead (Some 5%N) 2 "root-2" "sig-2")
     = (Database.OK,
        [Database.mkSignedTreeHead (Some 10%N) 1 "root-1" "sig-1";
         Database.mkSignedTreeHead (Some 5%N) 2 "root-2" "sig-2"]).
Proof.
  split; [|split; [|split]].
  - apply (WriteTreeHead_timestamp nat Database.counting_engine 0 []).
    reflexivity.
  - destruct (WriteTreeHead_timestamp nat Database.counting_engine 0 []
                (Database.mkSignedTreeHead (Some 10%N) 1 "root-1" "sig-1"))
      as (_ & Hforward & _).
    rewrite Hforward; reflexivity.
  - destruct (WriteTreeHead_timestamp nat Database.counting_engine 0
                [Database.mkSignedTreeHead (Some 10%N) 1 "root-1" "sig-1"]
                (Database.mkSignedTreeHead (Some 10%N) 2 "root-2" "sig-2"))
      as (_ & _ & Hduplicate & _).
    apply Hduplicate; [reflexivity|].
    eexists. split; [left; reflexivity | reflexivity].
  - destruct (WriteTreeHead_timestamp nat Database.counting_engine 0
                [Database.mkSignedTreeHead (Some 10%N) 1 "root-1" "sig-1"]
                (Database.mkSignedTreeHead (Some 5%N) 2 "root-2" "sig-2"))
      as (_ & _ & _ & Hstored).
    apply Hstored; [reflexivity|].
    intros stored [<-|[]]. discriminate.
Defined.

(** * Further properties of the checker *)

(** ** Verdicts and their status *)

(** X1. [GetVerifyError] keeps the four categories apart: the status is OK
    only for the verdict OK, INTERNAL only for INTERNAL_ERROR,
    FAILED_PRECONDITION only for ROOT_NOT_IN_LOCAL_STORE, and INVALID_ARGUMENT
    for the four verdicts on the merits of the chain. *)
Theorem GetVerifyError_categories (result : CertVerifyResult) :
  (util.ok (GetVerifyError result) = true <-> result = OK)
  /\ (util.error_code (GetVerifyError result) = util.error.INTERNAL <->
      result = INTERNAL_ERROR)
  /\ (util.error_code (GetVerifyError result) = util.error.FAILED_PRECONDITION <->
      result = ROOT_NOT_IN_LOCAL_STORE)
  /\ (util.error_code (GetVerifyError result) = util.error.INVALID_ARGUMENT <->
      result = INVALID_CERTIFICATE_CHAIN \/
      result = PRECERT_EXTENSION_IN_CERT_CHAIN \/
      result = UNSUPPORTED_ALGORITHM_IN_CERT_CHAIN \/
      result = PRECERT_CHAIN_NOT_WELL_FORMED).
Proof.
  destruct result; simpl; repeat split; intros H;
    try discriminate; try reflexivity; auto;
    repeat (destruct H as [H|H]; try discriminate).
Qed.

(** ** [IsTrusted] and [GetTrustedCa] *)

Section AnchorFacts.
Context {CL : CertLib}.

Lemma empty_false_of_In (trusted_ : TrustStore) (entry : string * Cert) :
  In entry trusted_ -> empty trusted_ = false.
Proof. destruct trusted_; [intros [] | reflexivity]. Qed.

(** [GetTrustedCa] when [IsTrusted] answers OK for the last certificate. *)
Lemma GetTrustedCa_when_trusted (trusted_ : TrustStore) (chain : CertChain)
    (subject : Cert) :
  LastCert chain = Some subject ->
  IsLoaded subject = true ->
  empty trusted_ = false ->
  fst (IsTrusted trusted_ subject "") = OK ->
  GetTrustedCa trusted_ chain = (OK, chain).
Proof.
  intros Hlast Hloaded Hne Hok. unfold GetTrustedCa.
  rewrite Hlast, Hloaded, Hne. simpl.
  destruct (IsTrusted trusted_ subject "") as [r name]. simpl in Hok.
  subst r. reflexivity.
Qed.

(** The loop of [GetTrustedCa] leaves with an issuer only if that issuer is
    one of the candidates and the signature verified against it. *)
Lemma find_issuer_found (subject issuer : Cert) (range : list (string * Cert)) :
  find_issuer subject range = inr (Some issuer) ->
  exists entry, In entry range /\ snd entry = issuer /\
                IsSignedBy subject issuer = Cert.TRUE.
Proof.
  induction range as [|it rest IH]; simpl; [discriminate|].
  destruct (IsSignedBy subject (snd it)) eqn:Hsig; try discriminate.
  - intros H. inversion H; subst issuer. exists it. auto.
  - intros H. destruct (IH H) as [entry [Hin Hrest]]. exists entry. auto.
Qed.

(** An early return from the loop is never an acceptance. *)
Lemma find_issuer_early (subject : Cert) (range : list (string * Cert))
    (result : CertVerifyResult) :
  find_issuer subject range = inl result ->
  result = UNSUPPORTED_ALGORITHM_IN_CERT_CHAIN \/ result = INTERNAL_ERROR.
Proof.
  induction range as [|it rest IH]; simpl; [discriminate|].
  destruct (IsSignedBy subject (snd it)); try discriminate;
    try exact IH; intros H; inversion H; auto.
Qed.

(** With an empty store [GetTrustedCa] never answers OK. *)
Lemma GetTrustedCa_empty_not_OK (trusted_ : TrustStore) (chain : CertChain) :
  empty trusted_ = true -> fst (GetTrustedCa trusted_ chain) <> OK.
Proof.
  intros Hempty. unfold GetTrustedCa.
  destruct (LastCert chain) as [subject|]; [|discriminate].
  destruct (negb (IsLoaded subject)); [discriminate|].
  rewrite Hempty. discriminate.
Qed.

End AnchorFacts.

(** X2. When the subject name of a certificate is not available, [IsTrusted]
    answers INTERNAL_ERROR if the extraction reported ERROR and
    INVALID_CERTIFICATE_CHAIN otherwise, leaves the out-parameter as it was,
    and does not depend on the trust store. *)
Theorem IsTrusted_name_unavailable {CL : CertLib}
    (trusted_ : TrustStore) (cert : Cert) (old : string) :
  fst (DerEncodedSubjectName cert) <> Cert.TRUE ->
  IsTrusted trusted_ cert old =
  (if match fst (DerEncodedSubjectName cert) with
      | Cert.ERROR => true
      | _ => false
      end
   then INTERNAL_ERROR else INVALID_CERTIFICATE_CHAIN, old)
  /\ IsTrusted trusted_ cert old = IsTrusted [] cert old.
Proof.
  intros Hname. unfold IsTrusted.
  destruct (DerEncodedSubjectName cert) as [[] name]; simpl in *;
    try (split; reflexivity).
  contradiction.
Qed.

Lemma IsTrusted_name_unavailable_witness :
  IsTrusted (CL := Sample.lib) Sample.one_root Sample.unloaded "before"
  = (INTERNAL_ERROR, "before")
  /\ IsTrusted (CL := Sample.lib) Sample.one_root Sample.nameless "before"
     = (INVALID_CERTIFICATE_CHAIN, "before").
Proof.
  split.
  - apply (IsTrusted_name_unavailable (CL := Sample.lib) Sample.one_root
             Sample.unloaded "before"). discriminate.
  - apply (IsTrusted_name_unavailable (CL := Sample.lib) Sample.one_root
             Sample.nameless "before"). discriminate.
Defined.

(** X3. A chain whose last certificate is loaded and identical to a trusted
    entry stored under its subject name is anchored as it stands:
    [GetTrustedCa] answers OK and does not touch the chain, whether or not
    that certificate is self-signed and whatever its issuer is. *)
Theorem GetTrustedCa_trusted_last_cert {CL : CertLib}
    (trusted_ : TrustStore) (chain : CertChain) (subject cand : Cert)
    (name : string) :
  LastCert chain = Some subject ->
  IsLoaded subject = true ->
  DerEncodedSubjectName subject = (Cert.TRUE, name) ->
  In (name, cand) trusted_ ->
  IsIdenticalTo subject cand = true ->
  GetTrustedCa trusted_ chain = (OK, chain).
Proof.
  intros Hlast Hloaded Hname Hin Hid.
  apply (GetTrustedCa_when_trusted _ _ subject Hlast Hloaded
           (empty_false_of_In _ _ Hin)).
  rewrite (IsTrusted_named _ _ _ _ Hname). simpl.
  assert (identical_in subject (equal_range trusted_ name) = true) as ->;
    [|reflexivity].
  apply identical_in_true. exists (name, cand). split; [|exact Hid].
  apply In_equal_range. auto.
Qed.

(** An intermediate that is itself trusted anchors the chain although its
    issuer is not in the store. *)
Lemma GetTrustedCa_trusted_last_cert_witness :
  GetTrustedCa (CL := Sample.lib) [("CN=CA", Sample.ca)]
    (Sample.valid_chain [Sample.leaf; Sample.ca] Cert.FALSE)
  = (OK, Sample.valid_chain [Sample.leaf; Sample.ca] Cert.FALSE).
Proof.
  apply (GetTrustedCa_trusted_last_cert (CL := Sample.lib)
           [("CN=CA", Sample.ca)] _ Sample.ca Sample.ca "CN=CA");
    try reflexivity.
  left. reflexivity.
Defined.

(** X4. A last certificate whose issuer name equals its subject name and that
    is not itself a trusted entry gets ROOT_NOT_IN_LOCAL_STORE with the chain
    untouched: the entries stored under that name are not tried as issuers,
    even one against which the signature would verify. *)
Theorem GetTrustedCa_self_signed_unknown {CL : CertLib}
    (trusted_ : TrustStore) (chain : CertChain) (subject : Cert)
    (name : string) :
  LastCert chain = Some subject ->
  IsLoaded subject = true ->
  IsTrusted trusted_ subject "" = (ROOT_NOT_IN_LOCAL_STORE, name) ->
  DerEncodedIssuerName subject = (Cert.TRUE, name) ->
  GetTrustedCa trusted_ chain = (ROOT_NOT_IN_LOCAL_STORE, chain).
Proof.
  intros Hlast Hloaded Htrusted Hissuer. unfold GetTrustedCa.
  rewrite Hlast, Hloaded. simpl.
  destruct (empty trusted_); [reflexivity|].
  rewrite Htrusted, Hissuer, String.eqb_refl. reflexivity.
Qed.

(** [rekeyed_root] carries the name of the trusted root and its signature
    verifies against it, yet it is not anchored. *)
Lemma GetTrustedCa_self_signed_unknown_witness :
  IsSignedBy (CertLib := Sample.lib) Sample.rekeyed_root Sample.root = Cert.TRUE
  /\ GetTrustedCa (CL := Sample.lib) Sample.one_root
       (Sample.valid_chain [Sample.leaf; Sample.rekeyed_root] Cert.FALSE)
     = (ROOT_NOT_IN_LOCAL_STORE,
        Sample.valid_chain [Sample.leaf; Sample.rekeyed_root] Cert.FALSE).
Proof.
  split; [reflexivity|].
  apply (GetTrustedCa_self_signed_unknown (CL := Sample.lib) Sample.one_root
           _ Sample.rekeyed_root "CN=Root"); reflexivity.
Defined.

(** X5. [GetTrustedCa] answers OK only for an anchored chain: the last
    certificate is loaded and either it is a trusted entry itself and the
    chain is unchanged, or its signature verified against a trusted entry
    stored under its issuer name, a name different from its subject name, and
    the chain is the one [AddCert] made of the old chain and the clone of that
    entry. *)
Theorem GetTrustedCa_sound {CL : CertLib}
    (trusted_ : TrustStore) (chain chain' : CertChain) :
  GetTrustedCa trusted_ chain = (OK, chain') ->
  exists subject,
    LastCert chain = Some subject /\ IsLoaded subject = true /\
    ((fst (IsTrusted trusted_ subject "") = OK /\ chain' = chain) \/
     (exists issuer_name issuer,
         DerEncodedIssuerName subject = (Cert.TRUE, issuer_name) /\
         snd (IsTrusted trusted_ subject "") <> issuer_name /\
         In (issuer_name, issuer) trusted_ /\
         IsSignedBy subject issuer = Cert.TRUE /\
         AddCert chain (Clone issuer) = (Cert.TRUE, chain'))).
Proof.
  unfold GetTrustedCa.
  destruct (LastCert chain) as [subject|]; [|discriminate].
  destruct (IsLoaded subject) eqn:Hloaded; [|discriminate]. simpl.
  destruct (empty trusted_); [discriminate|].
  destruct (IsTrusted trusted_ subject "") as [is_trusted subject_name]
    eqn:Htrusted.
  intros H. exists subject. split; [reflexivity|]. split; [exact Hloaded|].
  rewrite Htrusted.
  destruct is_trusted; try discriminate.
  - left. inversion H; subst. split; reflexivity.
  - right.
    destruct (DerEncodedIssuerName subject) as [[] issuer_name];
      try discriminate.
    destruct (String.eqb subject_name issuer_name) eqn:Hself;
      [discriminate|].
    destruct (find_issuer subject (equal_range trusted_ issuer_name))
      as [result|[issuer|]] eqn:Hfind; try discriminate.
    + inversion H. subst result.
      destruct (find_issuer_early _ _ _ Hfind); discriminate.
    + destruct (find_issuer_found _ _ _ Hfind) as [[key c] [Hin [Hc Hsig]]].
      simpl in Hc. subst c.
      apply In_equal_range in Hin. destruct Hin as [Hin Hkey].
      simpl in Hkey. subst key.
      destruct (AddCert chain (Clone issuer)) as [[] added] eqn:Hadd;
        inversion H; subst.
      exists issuer_name, issuer. simpl.
      apply String.eqb_neq in Hself. repeat split; auto.
Qed.

Lemma GetTrustedCa_sound_witness :
  exists subject : Sample.cert,
    LastCert (CertLib := Sample.lib)
      (Sample.valid_chain [Sample.leaf; Sample.cross_ca] Cert.FALSE)
    = Some subject /\ IsLoaded (CertLib := Sample.lib) subject = true /\
    ((fst (IsTrusted (CL := Sample.lib) Sample.two_roots subject "") = OK /\
      Sample.valid_chain [Sample.leaf; Sample.cross_ca; Sample.root'] Cert.FALSE
      = Sample.valid_chain [Sample.leaf; Sample.cross_ca] Cert.FALSE) \/
     (exists (issuer_name : string) (issuer : Sample.cert),
         DerEncodedIssuerName (CertLib := Sample.lib) subject
         = (Cert.TRUE, issuer_name) /\
         snd (IsTrusted (CL := Sample.lib) Sample.two_roots subject "")
         <> issuer_name /\
         In (issuer_name, issuer) Sample.two_roots /\
         IsSignedBy (CertLib := Sample.lib) subject issuer = Cert.TRUE /\
         AddCert (CertLib := Sample.lib)
           (Sample.valid_chain [Sample.leaf; Sample.cross_ca] Cert.FALSE)
           (Clone (CertLib := Sample.lib) issuer)
         = (Cert.TRUE,
            Sample.valid_chain [Sample.leaf; Sample.cross_ca; Sample.root']
              Cert.FALSE))).
Proof.
  apply (GetTrustedCa_sound (CL := Sample.lib) Sample.two_roots).
  reflexivity.
Defined.

(** X6. A verdict of [GetTrustedCa] other than OK and INTERNAL_ERROR leaves
    the chain exactly as it was submitted. *)
Theorem GetTrustedCa_chain_kept {CL : CertLib}
    (trusted_ : TrustStore) (chain : CertChain) :
  fst (GetTrustedCa trusted_ chain) <> OK ->
  fst (GetTrustedCa trusted_ chain) <> INTERNAL_ERROR ->
  snd (GetTrustedCa trusted_ chain) = chain.
Proof.
  unfold GetTrustedCa.
  repeat (split_match; simpl; try reflexivity; try congruence).
Qed.

Lemma GetTrustedCa_chain_kept_witness :
  snd (GetTrustedCa (CL := Sample.lib) Sample.one_root Sample.weak_chain)
  = Sample.weak_chain.
Proof.
  apply (GetTrustedCa_chain_kept (CL := Sample.lib)); discriminate.
Defined.

(** X7. In the scan of [GetTrustedCa], a candidate that is reached and whose
    signature check fails with ERROR ends the scan with INTERNAL_ERROR, the
    chain untouched, whatever candidates follow; and when the first verifying
    candidate is found but [AddCert] does not accept its clone, the verdict is
    INTERNAL_ERROR as well. *)
Theorem GetTrustedCa_scan_failure {CL : CertLib}
    (trusted_ : TrustStore) (chain : CertChain) (subject : Cert)
    (subject_name issuer_name : string)
    (before after : list (string * Cert)) (cand : string * Cert) :
  LastCert chain = Some subject ->
  IsLoaded subject = true ->
  IsTrusted trusted_ subject "" = (ROOT_NOT_IN_LOCAL_STORE, subject_name) ->
  DerEncodedIssuerName subject = (Cert.TRUE, issuer_name) ->
  subject_name <> issuer_name ->
  equal_range trusted_ issuer_name = before ++ cand :: after ->
  (forall c, In c before -> IsSignedBy subject (snd c) = Cert.FALSE) ->
  (IsSignedBy subject (snd cand) = Cert.ERROR ->
   GetTrustedCa trusted_ chain = (INTERNAL_ERROR, chain))
  /\ (IsSignedBy subject (snd cand) = Cert.TRUE ->
      fst (AddCert chain (Clone (snd cand))) <> Cert.TRUE ->
      GetTrustedCa trusted_ chain =
      (INTERNAL_ERROR, snd (AddCert chain (Clone (snd cand))))).
Proof.
  intros Hlast Hloaded Htrusted Hissuer Hdiff Hrange Hbefore.
  rewrite (GetTrustedCa_scan _ _ _ _ _ Hlast Hloaded
             (equal_range_nonempty _ _ _ _ _ Hrange) Htrusted Hissuer Hdiff).
  rewrite Hrange, (find_issuer_skip _ _ _ Hbefore). simpl. split.
  - intros ->. reflexivity.
  - intros -> Hadd.
    destruct (AddCert chain (Clone (snd cand))) as [[] added];
      simpl in *; congruence.
Qed.

(** The check of [broken_ca] against the first root fails with an error,
    although the second root would verify; the only trusted issuer of
    [ghost_ca] cannot be added to a chain. *)
Lemma GetTrustedCa_scan_failure_witness :
  GetTrustedCa (CL := Sample.lib) Sample.two_roots
    (Sample.valid_chain [Sample.leaf; Sample.broken_ca] Cert.FALSE)
  = (INTERNAL_ERROR,
     Sample.valid_chain [Sample.leaf; Sample.broken_ca] Cert.FALSE)
  /\ GetTrustedCa (CL := Sample.lib) Sample.ghost_store
       (Sample.valid_chain [Sample.leaf; Sample.ghost_ca] Cert.FALSE)
     = (INTERNAL_ERROR,
        Sample.valid_chain [Sample.leaf; Sample.ghost_ca] Cert.FALSE).
Proof.
  assert ("CN=Broken" <> "CN=Root") as Hbroken by discriminate.
  assert ("CN=GhostCA" <> "CN=Ghost") as Hghost by discriminate.
  split.
  - destruct (GetTrustedCa_scan_failure (CL := Sample.lib) Sample.two_roots
                (Sample.valid_chain [Sample.leaf; Sample.broken_ca] Cert.FALSE)
                Sample.broken_ca "CN=Broken" "CN=Root"
                [] [("CN=Root", Sample.root')] ("CN=Root", Sample.root)
                eq_refl eq_refl eq_refl eq_refl Hbroken eq_refl
                (fun c H => False_ind _ H)) as [Herror _].
    apply Herror. reflexivity.
  - destruct (GetTrustedCa_scan_failure (CL := Sample.lib) Sample.ghost_store
                (Sample.valid_chain [Sample.leaf; Sample.ghost_ca] Cert.FALSE)
                Sample.ghost_ca "CN=GhostCA" "CN=Ghost"
                [] [] ("CN=Ghost", Sample.unloaded)
                eq_refl eq_refl eq_refl eq_refl Hghost eq_refl
                (fun c H => False_ind _ H)) as [_ Hrefused].
    apply Hrefused; [reflexivity | discriminate].
Defined.

(** ** The entry points *)

Section EntryPointFacts.
Context {CL : CertLib}.

(** What an accepting [CheckIssuerChain] has checked. *)
Lemma CheckIssuerChain_accepted (trusted_ : TrustStore)
    (chain checked : CertChain) (status : util.Status) :
  CheckIssuerChain trusted_ chain = (status, checked) ->
  util.ok status = true ->
  exists trimmed,
    RemoveCertsAfterFirstSelfSigned chain = (Cert.TRUE, trimmed)
    /\ IsValidCaIssuerChainMaybeLegacyRoot trimmed = Cert.TRUE
    /\ IsValidSignatureChain trimmed = Cert.TRUE
    /\ GetTrustedCa trusted_ trimmed = (OK, checked)
    /\ status = util.Status_OK.
Proof.
  unfold CheckIssuerChain.
  destruct (RemoveCertsAfterFirstSelfSigned chain) as [[] trimmed];
    try (intros H Hok; inversion H; subst; discriminate).
  destruct (IsValidCaIssuerChainMaybeLegacyRoot trimmed) eqn:Hca;
    try (intros H Hok; inversion H; subst; discriminate).
  destruct (IsValidSignatureChain trimmed) eqn:Hsig;
    try (intros H Hok; inversion H; subst; discriminate).
  destruct (GetTrustedCa trusted_ trimmed) as [result anchored] eqn:Hanchor.
  intros H Hok. inversion H; subst.
  destruct result; try discriminate.
  exists trimmed. repeat split; auto.
Qed.

(** The other direction. *)
Lemma CheckIssuerChain_accepts (trusted_ : TrustStore)
    (chain trimmed checked : CertChain) :
  RemoveCertsAfterFirstSelfSigned chain = (Cert.TRUE, trimmed) ->
  IsValidCaIssuerChainMaybeLegacyRoot trimmed = Cert.TRUE ->
  IsValidSignatureChain trimmed = Cert.TRUE ->
  GetTrustedCa trusted_ trimmed = (OK, checked) ->
  CheckIssuerChain trusted_ chain = (util.Status_OK, checked).
Proof.
  intros Htrim Hca Hsig Hanchor. unfold CheckIssuerChain.
  rewrite Htrim, Hca, Hsig, Hanchor. reflexivity.
Qed.

(** What an accepting [CheckPreCertChain] has checked before it turns to
    the key hash. *)
Lemma CheckPreCertChain_accepted (trusted_ : TrustStore)
    (chain out_chain : option CertChain) (h0 t0 h t : string)
    (status : util.Status) :
  CheckPreCertChain trusted_ chain h0 t0 = (status, out_chain, h, t) ->
  util.ok status = true ->
  exists c checked,
    chain = Some c
    /\ Chain_IsLoaded c = true
    /\ IsWellFormed c = Cert.TRUE
    /\ CheckIssuerChain trusted_ c = (util.Status_OK, checked)
    /\ out_chain = Some checked
    /\ status = util.Status_OK.
Proof.
  unfold CheckPreCertChain.
  destruct chain as [c|];
    [|intros H Hok; inversion H; subst; discriminate].
  destruct (Chain_IsLoaded c) eqn:Hloaded; simpl;
    [|intros H Hok; inversion H; subst; discriminate].
  destruct (IsWellFormed c) eqn:Hwf;
    try (intros H Hok; inversion H; subst; discriminate).
  destruct (CheckIssuerChain trusted_ c) as [checked_status checked] eqn:Hcheck.
  destruct (util.ok checked_status) eqn:Hok; simpl;
    [|intros H Hok'; inversion H; subst; congruence].
  destruct (CheckIssuerChain_accepted _ _ _ _ Hcheck Hok)
    as (_ & _ & _ & _ & _ & ->).
  intros H Hok'. exists c, checked.
  assert (out_chain = Some checked /\ status = util.Status_OK) as [-> ->].
  { revert H.
    repeat (split_match; simpl;
            try (intros H; inversion H; subst; discriminate)).
    all: intros H; inversion H; subst; split; reflexivity. }
  repeat split; auto.
Qed.

End EntryPointFacts.

(** X8. [CheckIssuerChain] accepts exactly the chains that could be trimmed,
    whose issuer chain and signature chain are valid and that [GetTrustedCa]
    anchors; the status is then [Status::OK] and the chain handed back is the
    trimmed chain as [GetTrustedCa] left it. *)
Theorem CheckIssuerChain_accepts_iff {CL : CertLib}
    (trusted_ : TrustStore) (chain : CertChain) :
  (util.ok (fst (CheckIssuerChain trusted_ chain)) = true <->
   exists trimmed,
     RemoveCertsAfterFirstSelfSigned chain = (Cert.TRUE, trimmed)
     /\ IsValidCaIssuerChainMaybeLegacyRoot trimmed = Cert.TRUE
     /\ IsValidSignatureChain trimmed = Cert.TRUE
     /\ fst (GetTrustedCa trusted_ trimmed) = OK)
  /\ (forall trimmed,
        RemoveCertsAfterFirstSelfSigned chain = (Cert.TRUE, trimmed) ->
        util.ok (fst (CheckIssuerChain trusted_ chain)) = true ->
        CheckIssuerChain trusted_ chain =
        (util.Status_OK, snd (GetTrustedCa trusted_ trimmed))).
Proof.
  split; [split|].
  - intros Hok.
    destruct (CheckIssuerChain trusted_ chain) as [status checked] eqn:Hcheck.
    destruct (CheckIssuerChain_accepted _ _ _ _ Hcheck Hok)
      as (trimmed & Htrim & Hca & Hsig & Hanchor & _).
    exists trimmed. rewrite Hanchor. auto.
  - intros (trimmed & Htrim & Hca & Hsig & Hanchor).
    destruct (GetTrustedCa trusted_ trimmed) as [result checked] eqn:E.
    simpl in Hanchor. subst result.
    rewrite (CheckIssuerChain_accepts _ _ _ _ Htrim Hca Hsig E). reflexivity.
  - intros trimmed Htrim Hok.
    destruct (CheckIssuerChain trusted_ chain) as [status checked] eqn:Hcheck.
    destruct (CheckIssuerChain_accepted _ _ _ _ Hcheck Hok)
      as (trimmed' & Htrim' & _ & _ & Hanchor & ->).
    rewrite Htrim in Htrim'. inversion Htrim'; subst trimmed'.
    rewrite Hanchor. reflexivity.
Qed.

Lemma CheckIssuerChain_accepts_iff_witness :
  CheckIssuerChain (CL := Sample.lib) Sample.two_roots
    (Sample.valid_chain [Sample.leaf; Sample.cross_ca] Cert.FALSE)
  = (util.Status_OK,
     Sample.valid_chain [Sample.leaf; Sample.cross_ca; Sample.root'] Cert.FALSE).
Proof.
  destruct (CheckIssuerChain_accepts_iff (CL := Sample.lib) Sample.two_roots
              (Sample.valid_chain [Sample.leaf; Sample.cross_ca] Cert.FALSE))
    as [[_ Hif] Hresult].
  apply (Hresult _ eq_refl). apply Hif.
  exists (Sample.valid_chain [Sample.leaf; Sample.cross_ca] Cert.FALSE).
  repeat split.
Defined.

(** X9. [CheckIssuerChain] reports FAILED_PRECONDITION, the unknown root,
    exactly when the chain itself passed every check (trimming, issuer chain,
    signature chain) and [GetTrustedCa] answered ROOT_NOT_IN_LOCAL_STORE. *)
Theorem CheckIssuerChain_unknown_root_iff {CL : CertLib}
    (trusted_ : TrustStore) (chain : CertChain) :
  util.error_code (fst (CheckIssuerChain trusted_ chain)) =
  util.error.FAILED_PRECONDITION <->
  exists trimmed,
    RemoveCertsAfterFirstSelfSigned chain = (Cert.TRUE, trimmed)
    /\ IsValidCaIssuerChainMaybeLegacyRoot trimmed = Cert.TRUE
    /\ IsValidSignatureChain trimmed = Cert.TRUE
    /\ fst (GetTrustedCa trusted_ trimmed) = ROOT_NOT_IN_LOCAL_STORE.
Proof.
  unfold CheckIssuerChain.
  destruct (RemoveCertsAfterFirstSelfSigned chain) as [trim_status trimmed].
  split.
  - destruct trim_status; try discriminate.
    destruct (IsValidCaIssuerChainMaybeLegacyRoot trimmed) eqn:Hca;
      try discriminate.
    destruct (IsValidSignatureChain trimmed) eqn:Hsig; try discriminate.
    destruct (GetTrustedCa trusted_ trimmed) as [result checked] eqn:Hanchor.
    destruct result; try discriminate.
    intros _. exists trimmed. rewrite Hanchor. repeat split; auto.
  - intros (trimmed' & Htrim & Hca & Hsig & Hanchor).
    inversion Htrim; subst. rewrite Hca, Hsig.
    destruct (GetTrustedCa trusted_ trimmed') as [result checked].
    simpl in Hanchor. subst result. reflexivity.
Qed.

Lemma CheckIssuerChain_unknown_root_iff_witness :
  util.error_code
    (fst (CheckIssuerChain (CL := Sample.lib) Sample.two_roots
            (Sample.valid_chain [Sample.leaf; Sample.orphan_ca] Cert.FALSE)))
  = util.error.FAILED_PRECONDITION.
Proof.
  apply (CheckIssuerChain_unknown_root_iff (CL := Sample.lib)).
  exists (Sample.valid_chain [Sample.leaf; Sample.orphan_ca] Cert.FALSE).
  repeat split.
Defined.

(** X10. With an empty trust store, as after
    [ClearAllTrustedCertificates], none of [CheckIssuerChain],
    [CheckCertChain] and [CheckPreCertChain] accepts any chain, and
    [CheckPreCertChain] leaves its outputs alone. *)
Theorem empty_store_accepts_nothing {CL : CertLib}
    (trusted_ : TrustStore) (chain : CertChain) (h0 t0 : string) :
  empty trusted_ = true ->
  util.ok (fst (CheckIssuerChain trusted_ chain)) = false
  /\ util.ok (fst (CheckCertChain trusted_ (Some chain))) = false
  /\ util.ok (fst (fst (fst (CheckPreCertChain trusted_ (Some chain) h0 t0))))
     = false.
Proof.
  intros Hempty.
  assert (forall c, util.ok (fst (CheckIssuerChain trusted_ c)) = false)
    as Hissuer.
  { intros c. apply not_true_is_false. intros Hok.
    destruct (CheckIssuerChain trusted_ c) as [status checked] eqn:Hcheck.
    destruct (CheckIssuerChain_accepted _ _ _ _ Hcheck Hok)
      as (trimmed & _ & _ & _ & Hanchor & _).
    apply (GetTrustedCa_empty_not_OK trusted_ trimmed Hempty).
    rewrite Hanchor. reflexivity. }
  split; [apply Hissuer|]. split.
  - unfold CheckCertChain.
    destruct (negb (Chain_IsLoaded chain)); [reflexivity|].
    destruct (HasCriticalExtension (LeafCert chain) NID_ctPoison);
      try reflexivity.
    specialize (Hissuer chain).
    destruct (CheckIssuerChain trusted_ chain). exact Hissuer.
  - apply not_true_is_false. intros Hok.
    destruct (CheckPreCertChain trusted_ (Some chain) h0 t0)
      as [[[status out_chain] h] t] eqn:Hpre.
    destruct (CheckPreCertChain_accepted _ _ _ _ _ _ _ _ Hpre Hok)
      as (c & checked & _ & _ & _ & Hcheck & _).
    specialize (Hissuer c). rewrite Hcheck in Hissuer. discriminate.
Qed.

Lemma empty_store_accepts_nothing_witness :
  util.ok
    (fst (CheckIssuerChain (CL := Sample.lib)
            (ClearAllTrustedCertificates (CL := Sample.lib) Sample.two_roots)
            (Sample.valid_chain [Sample.leaf; Sample.ca; Sample.root] Cert.FALSE)))
  = false
  /\ util.ok
       (fst (CheckCertChain (CL := Sample.lib)
               (ClearAllTrustedCertificates (CL := Sample.lib) Sample.two_roots)
               (Some (Sample.valid_chain [Sample.leaf; Sample.ca; Sample.root]
                        Cert.FALSE))))
     = false
  /\ util.ok
       (fst (fst (fst (CheckPreCertChain (CL := Sample.lib)
                         (ClearAllTrustedCertificates (CL := Sample.lib)
                            Sample.two_roots)
                         (Some (Sample.valid_chain
                                  [Sample.leaf; Sample.ca; Sample.root]
                                  Cert.FALSE)) "" ""))))
     = false.
Proof.
  apply (empty_store_accepts_nothing (CL := Sample.lib)). reflexivity.
Defined.

(** X11. [CheckCertChain] accepts exactly the chains that are present and
    loaded, whose leaf is determined not to carry the poison extension, and
    that [CheckIssuerChain] accepts. *)
Theorem CheckCertChain_accepts_iff {CL : CertLib}
    (trusted_ : TrustStore) (chain : option CertChain) :
  util.ok (fst (CheckCertChain trusted_ chain)) = true <->
  exists c,
    chain = Some c
    /\ Chain_IsLoaded c = true
    /\ HasCriticalExtension (LeafCert c) NID_ctPoison = Cert.FALSE
    /\ util.ok (fst (CheckIssuerChain trusted_ c)) = true.
Proof.
  unfold CheckCertChain. split.
  - destruct chain as [c|]; [|discriminate].
    destruct (Chain_IsLoaded c) eqn:Hloaded; [|discriminate]. simpl.
    destruct (HasCriticalExtension (LeafCert c) NID_ctPoison) eqn:Hpoison;
      try discriminate.
    destruct (CheckIssuerChain trusted_ c) as [status checked] eqn:Hcheck.
    simpl. intros Hok. exists c. rewrite Hcheck. repeat split; auto.
  - intros (c & -> & Hloaded & Hpoison & Hok).
    rewrite Hloaded, Hpoison. simpl.
    destruct (CheckIssuerChain trusted_ c) as [status checked]. exact Hok.
Qed.

Lemma CheckCertChain_accepts_iff_witness :
  util.ok
    (fst (CheckCertChain (CL := Sample.lib) Sample.one_root
            (Some (Sample.valid_chain [Sample.leaf; Sample.ca] Cert.FALSE))))
  = true.
Proof.
  apply (CheckCertChain_accepts_iff (CL := Sample.lib)).
  exists (Sample.valid_chain [Sample.leaf; Sample.ca] Cert.FALSE).
  repeat split.
Defined.

(** X12. [CheckPreCertChain] writes its two outputs only when it accepts:
    with any other status [issuer_key_hash] and [tbs_certificate] hold what
    they held before the call. *)
Theorem CheckPreCertChain_outputs_kept {CL : CertLib}
    (trusted_ : TrustStore) (chain out_chain : option CertChain)
    (h0 t0 h t : string) (status : util.Status) :
  CheckPreCertChain trusted_ chain h0 t0 = (status, out_chain, h, t) ->
  util.ok status = false ->
  h = h0 /\ t = t0.
Proof.
  unfold CheckPreCertChain. intros H Hok. revert H.
  repeat (split_match; simpl);
    intros H; inversion H; subst; try (split; reflexivity); discriminate.
Qed.

(** A pre-certificate chain whose root is unknown, and one that turns out
    too short for its signing certificate, leave the outputs as they were. *)
Lemma CheckPreCertChain_outputs_kept_witness :
  (snd (fst (CheckPreCertChain (CL := Sample.lib) []
               (Some Sample.signed_prechain) "hash" "tbs")) = "hash"
   /\ snd (CheckPreCertChain (CL := Sample.lib) []
             (Some Sample.signed_prechain) "hash" "tbs") = "tbs")
  /\ (snd (fst (CheckPreCertChain (CL := Sample.lib) Sample.one_root
                  (Some Sample.short_prechain) "hash" "tbs")) = "hash"
      /\ snd (CheckPreCertChain (CL := Sample.lib) Sample.one_root
                (Some Sample.short_prechain) "hash" "tbs") = "tbs").
Proof.
  split.
  - apply (CheckPreCertChain_outputs_kept (CL := Sample.lib)
             [] (Some Sample.signed_prechain)
             (Some Sample.signed_prechain) "hash" "tbs" _ _
             (util.mkStatus util.error.FAILED_PRECONDITION "unknown root"));
      reflexivity.
  - apply (CheckPreCertChain_outputs_kept (CL := Sample.lib)
             Sample.one_root (Some Sample.short_prechain)
             (Some Sample.short_prechain) "hash" "tbs" _ _ internal_error);
      reflexivity.
Defined.

(** X13. The gate of [CheckPreCertChain], for a loaded chain: a chain that
    is not well formed is refused with INVALID_ARGUMENT, "prechain not well
    formed", without being trimmed; an undetermined well-formedness gives
    INTERNAL; a well-formed chain that [CheckIssuerChain] refuses gets the
    status and the chain of [CheckIssuerChain], outputs untouched; and an
    accepted chain is well formed and accepted by [CheckIssuerChain], whose
    chain is handed back. *)
Theorem CheckPreCertChain_gate {CL : CertLib}
    (trusted_ : TrustStore) (c : CertChain) (h0 t0 : string) :
  Chain_IsLoaded c = true ->
  (IsWellFormed c = Cert.FALSE ->
   CheckPreCertChain trusted_ (Some c) h0 t0 =
   (util.mkStatus util.error.INVALID_ARGUMENT "prechain not well formed",
    Some c, h0, t0))
  /\ (IsWellFormed c <> Cert.TRUE -> IsWellFormed c <> Cert.FALSE ->
      CheckPreCertChain trusted_ (Some c) h0 t0 =
      (util.mkStatus util.error.INTERNAL "internal error", Some c, h0, t0))
  /\ (IsWellFormed c = Cert.TRUE ->
      util.ok (fst (CheckIssuerChain trusted_ c)) = false ->
      CheckPreCertChain trusted_ (Some c) h0 t0 =
      (fst (CheckIssuerChain trusted_ c),
       Some (snd (CheckIssuerChain trusted_ c)), h0, t0))
  /\ (util.ok (fst (fst (fst (CheckPreCertChain trusted_ (Some c) h0 t0))))
      = true ->
      IsWellFormed c = Cert.TRUE
      /\ util.ok (fst (CheckIssuerChain trusted_ c)) = true
      /\ snd (fst (fst (CheckPreCertChain trusted_ (Some c) h0 t0))) =
         Some (snd (CheckIssuerChain trusted_ c))).
Proof.
  intros Hloaded. split; [|split; [|split]].
  - intros Hwf. unfold CheckPreCertChain. rewrite Hloaded, Hwf. reflexivity.
  - intros Hnt Hnf. unfold CheckPreCertChain. rewrite Hloaded. simpl.
    destruct (IsWellFormed c); try reflexivity; contradiction.
  - intros Hwf Hok. unfold CheckPreCertChain. rewrite Hloaded, Hwf. simpl.
    destruct (CheckIssuerChain trusted_ c) as [status checked].
    simpl in *. rewrite Hok. reflexivity.
  - intros Hok.
    destruct (CheckPreCertChain trusted_ (Some c) h0 t0)
      as [[[status out_chain] h] t] eqn:Hpre.
    destruct (CheckPreCertChain_accepted _ _ _ _ _ _ _ _ Hpre Hok)
      as (c' & checked & Hc & _ & Hwf & Hcheck & -> & _).
    inversion Hc; subst c'. rewrite Hcheck. auto.
Qed.

Lemma CheckPreCertChain_gate_witness :
  CheckPreCertChain (CL := Sample.lib) Sample.one_root
    (Some (Sample.mk_chain [Sample.precert; Sample.ca] Cert.TRUE Cert.TRUE
             Cert.TRUE Cert.FALSE Cert.FALSE)) "" ""
  = (util.mkStatus util.error.INVALID_ARGUMENT "prechain not well formed",
     Some (Sample.mk_chain [Sample.precert; Sample.ca] Cert.TRUE Cert.TRUE
             Cert.TRUE Cert.FALSE Cert.FALSE), "", "")
  /\ CheckPreCertChain (CL := Sample.lib) [] (Some Sample.direct_prechain) "" ""
     = (util.mkStatus util.error.FAILED_PRECONDITION "unknown root",
        Some Sample.direct_prechain, "", "").
Proof.
  split.
  - apply (CheckPreCertChain_gate (CL := Sample.lib)); reflexivity.
  - destruct (CheckPreCertChain_gate (CL := Sample.lib) []
                Sample.direct_prechain "" "" eq_refl) as (_ & _ & Hrefused & _).
    apply Hrefused; reflexivity.
Defined.

(** ** Loading and the trust it establishes *)

Section LoadTrustFacts.
Context {CL : CertLib}.

(** When every read gives a certificate that can be classified, the loop
    ends without [error]. *)
Lemma read_certs_no_error (trusted_ : TrustStore) (bio_in : BIO) :
  (forall read, In read bio_in ->
     exists cert, read = PEM_x509 cert /\
       (fst (IsTrusted trusted_ cert "") = OK \/
        fst (IsTrusted trusted_ cert "") = ROOT_NOT_IN_LOCAL_STORE)) ->
  forall certs_to_add cert_count,
    fst (fst (read_certs trusted_ bio_in certs_to_add cert_count)) = false.
Proof.
  induction bio_in as [|read rest IH]; intros Hall certs_to_add cert_count.
  - reflexivity.
  - simpl. destruct (Hall read (or_introl eq_refl)) as [cert [-> Hclass]].
    assert (forall r, In r rest ->
              exists cert, r = PEM_x509 cert /\
                (fst (IsTrusted trusted_ cert "") = OK \/
                 fst (IsTrusted trusted_ cert "") = ROOT_NOT_IN_LOCAL_STORE))
      as Hrest by (intros r Hin; apply Hall; right; exact Hin).
    destruct (IsTrusted trusted_ cert "") as [is_trusted subject_name].
    simpl in Hclass. destruct Hclass as [->| ->]; apply IH; exact Hrest.
Qed.

(** The outcome of a load of a source all of whose reads can be
    classified. *)
Lemma Load_classified (trusted_ : TrustStore) (bio_in : BIO) :
  (forall read, In read bio_in ->
     exists cert, read = PEM_x509 cert /\
       (fst (IsTrusted trusted_ cert "") = OK \/
        fst (IsTrusted trusted_ cert "") = ROOT_NOT_IN_LOCAL_STORE)) ->
  LoadTrustedCertificatesFromBIO trusted_ bio_in =
  if (N.of_nat (List.length bio_in) mod size_t_modulus =? 0)%N
  then (false, trusted_)
  else (true, trusted_ ++ rev (not_yet_trusted trusted_ bio_in)).
Proof.
  intros Hall. unfold LoadTrustedCertificatesFromBIO.
  pose proof (read_certs_no_error _ _ Hall [] 0%N) as Herr.
  destruct (read_certs_clean trusted_ bio_in [] 0%N Herr)
    as (_ & Hstaged & Hcount).
  specialize (Hcount eq_refl).
  destruct (read_certs trusted_ bio_in [] 0%N)
    as [[error certs_to_add] cert_count].
  simpl in *. subst error certs_to_add cert_count.
  destruct (N.of_nat (List.length bio_in) mod size_t_modulus =? 0)%N;
    [reflexivity|].
  rewrite insert_from_back_app. reflexivity.
Qed.

(** A source that is not empty and holds fewer than 2^64 reads is counted
    without wrapping to zero. *)
Lemma cert_count_not_zero (bio_in : BIO) :
  bio_in <> [] ->
  (N.of_nat (List.length bio_in) < size_t_modulus)%N ->
  (N.of_nat (List.length bio_in) mod size_t_modulus =? 0)%N = false.
Proof.
  intros Hne Hlt. rewrite N.mod_small by exact Hlt.
  apply N.eqb_neq. destruct bio_in; [contradiction | simpl; lia].
Qed.

(** After a successful load every certificate of the source finds an
    identical entry under its subject name, provided a certificate is
    identical to itself. *)
Lemma Load_success_identical (trusted_ trusted' : TrustStore) (bio_in : BIO)
    (cert : Cert) :
  (forall c, IsIdenticalTo c c = true) ->
  LoadTrustedCertificatesFromBIO trusted_ bio_in = (true, trusted') ->
  In (PEM_x509 cert) bio_in ->
  exists name,
    DerEncodedSubjectName cert = (Cert.TRUE, name)
    /\ identical_in cert (equal_range trusted' name) = true.
Proof.
  intros Hrefl Hload Hin.
  destruct (Load_success _ _ _ Hload) as (Hstore & Hall & _).
  destruct (Hall _ Hin) as [cert' [Heq Hclass]].
  inversion Heq; subst cert'. clear Heq.
  destruct (IsTrusted trusted_ cert "") as [r name] eqn:E. simpl in Hclass.
  pose proof (IsTrusted_classified _ _ _ _ _ E Hclass) as Hname.
  exists name. split; [exact Hname|].
  rewrite (IsTrusted_named trusted_ _ _ "" Hname) in E.
  subst trusted'. rewrite equal_range_app, identical_in_app.
  destruct (identical_in cert (equal_range trusted_ name)) eqn:Hid;
    [reflexivity|]. simpl.
  apply identical_in_true. exists (name, cert). split; [|apply Hrefl].
  apply In_equal_range. split; [|reflexivity].
  apply in_rev. rewrite rev_involutive.
  apply In_not_yet_trusted; [exact Hin|].
  rewrite (IsTrusted_named trusted_ _ _ "" Hname), Hid. reflexivity.
Qed.

(** A load never removes an entry: the store after the call starts with the
    store before it. *)
Lemma Load_extends (trusted_ : TrustStore) (bio_in : BIO) :
  exists added,
    snd (LoadTrustedCertificatesFromBIO trusted_ bio_in) = trusted_ ++ added.
Proof.
  unfold LoadTrustedCertificatesFromBIO.
  destruct (read_certs trusted_ bio_in [] 0%N)
    as [[error certs_to_add] cert_count].
  destruct (error || (cert_count =? 0)%N); simpl.
  - exists []. symmetry. apply app_nil_r.
  - exists (rev certs_to_add). apply insert_from_back_app.
Qed.

End LoadTrustFacts.

(** X14. [LoadTrustedCertificatesFromBIO] returns true exactly when every
    read of the source gives a certificate that [IsTrusted] classifies as OK
    or ROOT_NOT_IN_LOCAL_STORE and the count of certificates, kept in a
    [size_t], is not zero; in particular a source of that kind that is not
    empty and has fewer than 2^64 certificates is loaded, and the store is
    then the old one followed by the new certificates, last read first. *)
Theorem Load_returns_true_iff {CL : CertLib}
    (trusted_ : TrustStore) (bio_in : BIO) :
  (fst (LoadTrustedCertificatesFromBIO trusted_ bio_in) = true <->
   (forall read, In read bio_in ->
      exists cert, read = PEM_x509 cert /\
        (fst (IsTrusted trusted_ cert "") = OK \/
         fst (IsTrusted trusted_ cert "") = ROOT_NOT_IN_LOCAL_STORE))
   /\ (N.of_nat (List.length bio_in) mod size_t_modulus <> 0)%N)
  /\ (bio_in <> [] ->
      (N.of_nat (List.length bio_in) < size_t_modulus)%N ->
      (forall read, In read bio_in ->
         exists cert, read = PEM_x509 cert /\
           (fst (IsTrusted trusted_ cert "") = OK \/
            fst (IsTrusted trusted_ cert "") = ROOT_NOT_IN_LOCAL_STORE)) ->
      LoadTrustedCertificatesFromBIO trusted_ bio_in =
      (true, trusted_ ++ rev (not_yet_trusted trusted_ bio_in))).
Proof.
  split; [split|].
  - intros Htrue.
    destruct (LoadTrustedCertificatesFromBIO trusted_ bio_in)
      as [loaded trusted'] eqn:Hload.
    simpl in Htrue. subst loaded.
    destruct (Load_success _ _ _ Hload) as (_ & Hall & Hcount). auto.
  - intros [Hall Hcount]. rewrite (Load_classified _ _ Hall).
    apply N.eqb_neq in Hcount. rewrite Hcount. reflexivity.
  - intros Hne Hlt Hall.
    rewrite (Load_classified _ _ Hall), (cert_count_not_zero _ Hne Hlt).
    reflexivity.
Qed.

(** Two new certificates of the same name: the one read last comes first in
    the store. *)
Lemma Load_returns_true_iff_witness :
  LoadTrustedCertificatesFromBIO (CL := Sample.lib) []
    [PEM_x509 Sample.root; PEM_x509 Sample.root']
  = (true, [("CN=Root", Sample.root'); ("CN=Root", Sample.root)]).
Proof.
  destruct (Load_returns_true_iff (CL := Sample.lib) []
              [PEM_x509 Sample.root; PEM_x509 Sample.root']) as [_ Hloads].
  apply Hloads.
  - discriminate.
  - reflexivity.
  - intros read [<-|[<-|[]]]; eexists; (split; [reflexivity|]);
      right; reflexivity.
Defined.

(** X15. After a successful load every certificate of the source is trusted:
    [IsTrusted] answers OK for it against the new store, provided
    [IsIdenticalTo] holds between a certificate and itself. *)
Theorem Load_then_IsTrusted {CL : CertLib}
    (trusted_ trusted' : TrustStore) (bio_in : BIO) (cert : Cert)
    (old : string) :
  (forall c, IsIdenticalTo c c = true) ->
  LoadTrustedCertificatesFromBIO trusted_ bio_in = (true, trusted') ->
  In (PEM_x509 cert) bio_in ->
  fst (IsTrusted trusted' cert old) = OK.
Proof.
  intros Hrefl Hload Hin.
  destruct (Load_success_identical _ _ _ _ Hrefl Hload Hin)
    as (name & Hname & Hid).
  rewrite (IsTrusted_named _ _ _ _ Hname), Hid. reflexivity.
Qed.

Lemma Load_then_IsTrusted_witness :
  fst (IsTrusted (CL := Sample.lib)
         [("CN=Root", Sample.root); ("CN=CA", Sample.ca)] Sample.ca "") = OK.
Proof.
  apply (Load_then_IsTrusted (CL := Sample.lib) Sample.one_root _
           [PEM_x509 Sample.root; PEM_x509 Sample.ca]).
  - intros c. apply String.eqb_refl.
  - reflexivity.
  - right. left. reflexivity.
Defined.

(** X16. A load never revokes trust: a certificate for which [IsTrusted]
    answers OK before the call gets OK after it, whether the call succeeds or
    not. *)
Theorem Load_preserves_trust {CL : CertLib}
    (trusted_ : TrustStore) (bio_in : BIO) (cert : Cert) (old : string) :
  fst (IsTrusted trusted_ cert old) = OK ->
  fst (IsTrusted (snd (LoadTrustedCertificatesFromBIO trusted_ bio_in))
         cert old) = OK.
Proof.
  intros Hok.
  destruct (IsTrusted trusted_ cert old) as [r name] eqn:E. simpl in Hok.
  subst r.
  assert (DerEncodedSubjectName cert = (Cert.TRUE, name)) as Hname.
  { revert E. unfold IsTrusted.
    destruct (DerEncodedSubjectName cert) as [[] cert_name]; try discriminate.
    destruct (identical_in _ _); intros E; inversion E; reflexivity. }
  rewrite (IsTrusted_named _ _ _ _ Hname) in E.
  destruct (identical_in cert (equal_range trusted_ name)) eqn:Hid;
    [|discriminate].
  destruct (Load_extends trusted_ bio_in) as [added ->].
  rewrite (IsTrusted_named _ _ _ _ Hname).
  rewrite equal_range_app, identical_in_app, Hid. reflexivity.
Qed.

Lemma Load_preserves_trust_witness :
  fst (IsTrusted (CL := Sample.lib)
         (snd (LoadTrustedCertificatesFromBIO (CL := Sample.lib) Sample.one_root
                 [PEM_x509 Sample.ca; PEM_x509 Sample.root']))
         Sample.root "") = OK.
Proof.
  apply (Load_preserves_trust (CL := Sample.lib)). reflexivity.
Defined.

(** X17. A source that is not empty, has fewer than 2^64 certificates and
    holds only certificates that are trusted already is loaded with success
    and leaves the store as it is: the count of parsed certificates, not the
    number of new ones, decides about success. *)
Theorem Load_all_known {CL : CertLib}
    (trusted_ : TrustStore) (bio_in : BIO) :
  bio_in <> [] ->
  (N.of_nat (List.length bio_in) < size_t_modulus)%N ->
  (forall read, In read bio_in ->
     exists cert, read = PEM_x509 cert /\
                  fst (IsTrusted trusted_ cert "") = OK) ->
  LoadTrustedCertificatesFromBIO trusted_ bio_in = (true, trusted_).
Proof.
  intros Hne Hlt Hall.
  assert (not_yet_trusted trusted_ bio_in = []) as Hnone.
  { clear Hne Hlt. induction bio_in as [|read rest IH]; [reflexivity|].
    unfold not_yet_trusted in *. simpl.
    destruct (Hall read (or_introl eq_refl)) as [cert [-> Hok]].
    destruct (IsTrusted trusted_ cert "") as [r name]. simpl in Hok. subst r.
    simpl. apply IH. intros r Hin. apply Hall. right. exact Hin. }
  rewrite Load_classified.
  - rewrite (cert_count_not_zero _ Hne Hlt), Hnone. simpl.
    rewrite app_nil_r. reflexivity.
  - intros read Hin. destruct (Hall read Hin) as [cert [-> Hok]].
    exists cert. auto.
Qed.

Lemma Load_all_known_witness :
  LoadTrustedCertificatesFromBIO (CL := Sample.lib) Sample.two_roots
    [PEM_x509 Sample.root'; PEM_x509 Sample.root; PEM_x509 Sample.root']
  = (true, Sample.two_roots).
Proof.
  apply (Load_all_known (CL := Sample.lib)).
  - discriminate.
  - reflexivity.
  - intros read [<-|[<-|[<-|[]]]]; eexists; split; reflexivity.
Defined.

(** X18. A successful load keeps the entries that were stored under a name in
    their order and puts the new entries of that name behind them, in the
    reverse of the order of the source: of two new certificates with the same
    subject name, the one read later is the earlier candidate afterwards. *)
Theorem Load_candidate_order {CL : CertLib}
    (trusted_ trusted' : TrustStore) (bio_in : BIO) (key : string) :
  LoadTrustedCertificatesFromBIO trusted_ bio_in = (true, trusted') ->
  equal_range trusted' key =
  equal_range trusted_ key ++
  rev (equal_range (not_yet_trusted trusted_ bio_in) key).
Proof.
  intros Hload. destruct (Load_success _ _ _ Hload) as (-> & _ & _).
  rewrite equal_range_app. f_equal. unfold equal_range. apply filter_rev.
Qed.

Lemma Load_candidate_order_witness :
  equal_range (CL := Sample.lib)
    [("CN=Root", Sample.root); ("CN=Root", Sample.rekeyed_root);
     ("CN=CA", Sample.ca); ("CN=Root", Sample.root')] "CN=Root"
  = [("CN=Root", Sample.root); ("CN=Root", Sample.rekeyed_root);
     ("CN=Root", Sample.root')].
Proof.
  apply (Load_candidate_order (CL := Sample.lib) Sample.one_root _
           [PEM_x509 Sample.root'; PEM_x509 Sample.ca;
            PEM_x509 Sample.rekeyed_root]).
  reflexivity.
Defined.

(** X19. Loading and validating compose: after a successful load, a chain
    whose last certificate is loaded and is one of the certificates of the
    source is anchored by [GetTrustedCa] as it stands, provided
    [IsIdenticalTo] holds between a certificate and itself. *)
Theorem Load_then_GetTrustedCa {CL : CertLib}
    (trusted_ trusted' : TrustStore) (bio_in : BIO) (chain : CertChain)
    (subject : Cert) :
  (forall c, IsIdenticalTo c c = true) ->
  LoadTrustedCertificatesFromBIO trusted_ bio_in = (true, trusted') ->
  In (PEM_x509 subject) bio_in ->
  LastCert chain = Some subject ->
  IsLoaded subject = true ->
  GetTrustedCa trusted' chain = (OK, chain).
Proof.
  intros Hrefl Hload Hin Hlast Hloaded.
  destruct (Load_success_identical _ _ _ _ Hrefl Hload Hin)
    as (name & Hname & Hid).
  apply (GetTrustedCa_when_trusted _ _ subject Hlast Hloaded).
  - destruct (equal_range trusted' name) as [|entry rest] eqn:Hrange;
      [discriminate|].
    apply (empty_false_of_In _ entry).
    apply (In_equal_range trusted' name entry). rewrite Hrange. left.
    reflexivity.
  - rewrite (IsTrusted_named _ _ _ _ Hname), Hid. reflexivity.
Qed.

Lemma Load_then_GetTrustedCa_witness :
  GetTrustedCa (CL := Sample.lib)
    [("CN=CA", Sample.ca); ("CN=Root", Sample.root)]
    (Sample.valid_chain [Sample.leaf; Sample.ca] Cert.FALSE)
  = (OK, Sample.valid_chain [Sample.leaf; Sample.ca] Cert.FALSE).
Proof.
  apply (Load_then_GetTrustedCa (CL := Sample.lib) [] _
           [PEM_x509 Sample.root; PEM_x509 Sample.ca] _ Sample.ca).
  - intros c. apply String.eqb_refl.
  - reflexivity.
  - right. left. reflexivity.
  - reflexivity.
  - reflexivity.
Defined.

(** ** The write operations of [Database] *)

(** X20. Over any run of [WriteTreeHead] calls the engine is in the state it
    would be in had it been given, through [WriteTreeHead_], the tree heads
    with a timestamp only: a tree head without timestamp never reaches it. *)
Theorem WriteTreeHead_run (DB : Type) (E : Database.Engine DB)
    (sths : list Database.SignedTreeHead) (db : DB) :
  fold_left (fun db sth => snd (Database.WriteTreeHead db sth)) sths db =
  fold_left (fun db sth => snd (Database.WriteTreeHead_ db sth))
    (filter Database.has_timestamp sths) db.
Proof.
  revert db. induction sths as [|sth rest IH]; intros db; [reflexivity|].
  simpl. unfold Database.WriteTreeHead at 2.
  destruct (Database.has_timestamp sth); simpl; apply IH.
Qed.

(** X21. [CreateSequencedEntry] hands an entry to the engine exactly when the
    entry has a sequence number and that number is not negative, and the
    result is then the engine's; otherwise the call does not return.  So a
    run of calls comes to its end exactly when every entry satisfies this,
    and it leaves the engine as [CreateSequencedEntry_] alone would. *)
Theorem CreateSequencedEntry_run (DB Logged : Type)
    (L : Database.LoggedEntry Logged) (E : Database.SequencingEngine DB Logged)
    (entries : list Logged) (db : DB) :
  (forall logged,
      Database.CreateSequencedEntry db logged =
      if Database.has_sequence_number logged &&
         (0 <=? Database.sequence_number logged)%Z
      then Some (Database.CreateSequencedEntry_ db logged)
      else None)
  /\ fold_left
       (fun state logged =>
          match state with
          | Some db =>
              option_map snd (Database.CreateSequencedEntry db logged)
          | None => None
          end)
       entries (Some db) =
     if forallb
          (fun logged =>
             Database.has_sequence_number logged &&
             (0 <=? Database.sequence_number logged)%Z)
          entries
     then Some (fold_left
                  (fun db logged => snd (Database.CreateSequencedEntry_ db logged))
                  entries db)
     else None.
Proof.
  assert (forall db logged,
             Database.CreateSequencedEntry db logged =
             if Database.has_sequence_number logged &&
                (0 <=? Database.sequence_number logged)%Z
             then Some (Database.CreateSequencedEntry_ db logged)
             else None) as Hone.
  { intros db' logged. unfold Database.CreateSequencedEntry.
    destruct (Database.has_sequence_number logged); [|reflexivity]. simpl.
    rewrite Z.geb_leb.
    destruct (0 <=? Database.sequence_number logged)%Z; reflexivity. }
  split; [apply Hone|].
  revert db. induction entries as [|logged rest IH]; intros db; [reflexivity|].
  simpl. rewrite Hone.
  destruct (Database.has_sequence_number logged &&
            (0 <=? Database.sequence_number logged)%Z); simpl.
  - apply IH.
  - clear IH. induction rest as [|l rest IH]; [reflexivity | exact IH].
Qed.

(** An entry without sequence number and one with a negative number do not
    reach the engine; an entry with sequence number 1 does. *)
Lemma CreateSequencedEntry_run_witness :
  Database.CreateSequencedEntry (L := Sample.logged_entry)
    (E := Sample.storing_engine) [] (Sample.mk_logged None "hash-a") = None
  /\ Database.CreateSequencedEntry (L := Sample.logged_entry)
       (E := Sample.storing_engine) [] (Sample.mk_logged (Some (-1)%Z) "hash-a")
     = None
  /\ Database.CreateSequencedEntry (L := Sample.logged_entry)
       (E := Sample.storing_engine)
       [Sample.mk_logged (Some 0%Z) "hash-a"]
       (Sample.mk_logged (Some 1%Z) "hash-a")
     = Some (Database.OK,
             [Sample.mk_logged (Some 0%Z) "hash-a";
              Sample.mk_logged (Some 1%Z) "hash-a"]).
Proof.
  split; [|split].
  - destruct (CreateSequencedEntry_run (list Sample.logged) Sample.logged
                Sample.logged_entry Sample.storing_engine [] [])
      as [Hone _].
    rewrite Hone. reflexivity.
  - destruct (CreateSequencedEntry_run (list Sample.logged) Sample.logged
                Sample.logged_entry Sample.storing_engine [] [])
      as [Hone _].
    rewrite Hone. reflexivity.
  - destruct (CreateSequencedEntry_run (list Sample.logged) Sample.logged
                Sample.logged_entry Sample.storing_engine []
                [Sample.mk_logged (Some 0%Z) "hash-a"])
      as [Hone _].
    rewrite Hone. reflexivity.
Defined.
